(** * News API backend: a shallow embedding of [main.py]

    The backend is a thin HTTP layer over a document store.  Documents are
    Python dictionaries, modelled as finite maps from field names to values;
    the store adapter (module [database]) is an external collaborator and is
    modelled as an interface; route handlers run in a small state-and-error
    monad that threads the adapter's state and records every adapter call. *)

From Stdlib Require Import Ascii String.
From stdpp Require Import gmap strings list fin_maps pretty.

#[local] Set Warnings "-register-all".
#[local] Open Scope Z_scope.

(** ** Python values *)

(** A [bson.ObjectId]: its bytes, kept as the lower-case hexadecimal digits
    that [str] prints, two for each byte. *)
Record ObjectId := mkObjectId { oid_hex : string }.

Inductive value : Type :=
| VNone
| VBool (b : bool)
| VInt (z : Z)
| VStr (s : string)
| VOid (o : ObjectId)
| VList (l : list value)
| VDict (m : gmap string value).

(** A document is a dictionary with string keys. *)
Abbreviation doc := (gmap string value).

(** [isinstance(v, ObjectId)] *)
Definition is_ObjectId (v : value) : bool :=
  match v with VOid _ => true | _ => false end.

(** [repr] of a list or dictionary, and of a string inside an error text,
    depends on insertion order and quoting rules that the model does not
    keep; it is taken as a parameter. *)
Class PyRepr := py_repr : value → string.

(** [str(v)] *)
Definition py_str {R : PyRepr} (v : value) : string :=
  match v with
  | VNone => "None"
  | VBool true => "True"
  | VBool false => "False"
  | VInt z => pretty z
  | VStr s => s
  | VOid o => oid_hex o
  | VList _ | VDict _ => py_repr v
  end.

(** ** Strings

    A Python [str] is kept as its UTF-8 encoding.  Slicing counts characters,
    so a prefix is cut at a character boundary: a byte [10xxxxxx] continues
    the character before it. *)
Definition is_continuation (c : ascii) : bool :=
  let n := N_of_ascii c in ((128 <=? n) && (n <? 192))%N.

(** [s[:n]] *)
Fixpoint str_prefix (n : nat) (s : string) : string :=
  match s with
  | EmptyString => EmptyString
  | String c rest =>
      if is_continuation c then String c (str_prefix n rest)
      else match n with
           | O => EmptyString
           | S n' => String c (str_prefix n' rest)
           end
  end.

(** Number of characters of a string, [len(s)]. *)
Fixpoint str_len (s : string) : nat :=
  match s with
  | EmptyString => O
  | String c rest => if is_continuation c then str_len rest else S (str_len rest)
  end.

(** ** Exceptions and results *)

Inductive exn : Type :=
| HTTPException (status_code : Z) (detail : string)
| ImportError (msg : string)
| AttributeError (msg : string)
| InvalidId (msg : string)
| RequestValidationError (missing : list string)
| OtherException (msg : string).

(** [isinstance(e, ImportError)] *)
Definition is_ImportError (e : exn) : bool :=
  match e with ImportError _ => true | _ => false end.

(** [str(e)].  Starlette's [HTTPException] prints as "<status>: <detail>";
    the others print their message.  A request-validation error is raised by
    the framework before the handler runs, and no handler takes its text. *)
Definition exn_str (e : exn) : string :=
  match e with
  | HTTPException status_code detail => pretty status_code +:+ ": " +:+ detail
  | ImportError msg | AttributeError msg | InvalidId msg | OtherException msg => msg
  | RequestValidationError missing => "validation error"
  end.

Inductive result (A : Type) : Type :=
| Ok (a : A)
| Raise (e : exn).
Arguments Ok {A} a.
Arguments Raise {A} e.

(** The status line FastAPI sends for the outcome of a handler: 200 for a
    returned value, the exception's own status for an [HTTPException], 422 for
    a rejected request body, 500 for anything else. *)
Definition http_status {A} (r : result A) : Z :=
  match r with
  | Ok _ => 200
  | Raise (HTTPException status_code _) => status_code
  | Raise (RequestValidationError _) => 422
  | Raise _ => 500
  end.

(** ** [bson.ObjectId(s)] *)

Definition is_hex_digit (c : ascii) : bool :=
  let n := N_of_ascii c in
  (((48 <=? n) && (n <=? 57)) || ((65 <=? n) && (n <=? 70)) || ((97 <=? n) && (n <=? 102)))%N.

Definition lower_ascii (c : ascii) : ascii :=
  let n := N_of_ascii c in
  if ((65 <=? n) && (n <=? 90))%N then ascii_of_N (n + 32) else c.

Fixpoint str_forallb (p : ascii → bool) (s : string) : bool :=
  match s with
  | EmptyString => true
  | String c rest => p c && str_forallb p rest
  end.

Fixpoint str_map (f : ascii → ascii) (s : string) : string :=
  match s with
  | EmptyString => EmptyString
  | String c rest => String (f c) (str_map f rest)
  end.

(** [bytes.fromhex] skips ASCII whitespace before a byte. *)
Definition is_ascii_space (c : ascii) : bool :=
  let n := N_of_ascii c in (((9 <=? n) && (n <=? 13)) || (n =? 32))%N.

Definition hex_value (c : ascii) : option N :=
  let n := N_of_ascii c in
  if ((48 <=? n) && (n <=? 57))%N then Some (n - 48)%N
  else if ((65 <=? n) && (n <=? 70))%N then Some (n - 55)%N
  else if ((97 <=? n) && (n <=? 102))%N then Some (n - 87)%N
  else None.

(** [bytes.fromhex(s)]: the bytes written as pairs of hexadecimal digits,
    with whitespace allowed before each pair and at the end; [None] stands
    for [ValueError]. *)
Fixpoint fromhex (s : string) : option (list N) :=
  match s with
  | EmptyString => Some []
  | String c rest =>
      if is_ascii_space c then fromhex rest
      else
        match hex_value c, rest with
        | Some top, String c' rest' =>
            match hex_value c' with
            | Some bot => (λ bytes, (16 * top + bot)%N :: bytes) <$> fromhex rest'
            | None => None
            end
        | _, _ => None
        end
  end.

Definition hex_char (n : N) : ascii :=
  if (n <? 10)%N then ascii_of_N (48 + n) else ascii_of_N (87 + n).

(** [binascii.hexlify(bytes).decode()] *)
Fixpoint hexlify (bytes : list N) : string :=
  match bytes with
  | [] => EmptyString
  | b :: rest => String (hex_char (b / 16)%N) (String (hex_char (b mod 16)%N) (hexlify rest))
  end.

(** The text of the [InvalidId] that the constructor raises for [s]. *)
Definition invalid_id_text {R : PyRepr} (s : string) : string :=
  py_repr (VStr s)
  +:+ " is not a valid ObjectId, it must be a 12-byte input or a 24-character hex string".

(** The constructor, on a string: a string of 24 characters that
    [bytes.fromhex] reads gives the identifier made of the bytes read (twelve
    of them when all 24 characters are digits, fewer when some are
    whitespace); any other string raises [InvalidId]. *)
Definition ObjectId_new {R : PyRepr} (s : string) : result ObjectId :=
  if (str_len s =? 24)%nat
  then match fromhex s with
       | Some bytes => Ok (mkObjectId (hexlify bytes))
       | None => Raise (InvalidId (invalid_id_text s))
       end
  else Raise (InvalidId (invalid_id_text s)).

(** ** [serialize_doc] on dictionary contents *)

(** The loop [for k, v in list(doc.items()): if isinstance(v, ObjectId):
    doc[k] = str(v)], run over a snapshot [items] of the dictionary. *)
Definition stringify_step {R : PyRepr} (d : doc) (kv : string * value) : doc :=
  if is_ObjectId kv.2 then <[kv.1 := VStr (py_str kv.2)]> d else d.

Definition stringify_items {R : PyRepr} (items : list (string * value)) (d : doc) : doc :=
  foldl stringify_step d items.

(** The statements that follow [doc = dict(doc)], on the copy. *)
Definition serialize_copy {R : PyRepr} (d : doc) : doc :=
  let d :=
    match d !! "_id" with
    | Some v => <["id" := VStr (py_str v)]> (delete "_id" d)
    | None => d
    end in
  stringify_items (map_to_list d) d.

Definition serialize_doc {R : PyRepr} (d : doc) : doc :=
  if decide (d = ∅) then d else serialize_copy d.

(** ** [serialize_doc] on dictionary objects

    Python dictionaries are objects: the caller and the callee hold references
    to the same one.  The object heap maps a location to the contents of the
    dictionary stored there; a computation threads the heap and fails only on
    a dangling reference or a missing key. *)
Module Obj.

Abbreviation loc := positive.
Abbreviation heap := (gmap loc doc).

(** What the parameter [doc] may be bound to. *)
Inductive ref : Type :=
| RNone
| RDict (l : loc).

Definition HeapM (A : Type) : Type := heap → option (A * heap).

#[global] Instance HeapM_ret : MRet HeapM := λ A a h, Some (a, h).

#[global] Instance HeapM_bind : MBind HeapM := λ A B k m h,
  match m h with
  | Some (a, h') => k a h'
  | None => None
  end.

(** Failure: a dangling reference, or [KeyError]. *)
Definition fail {A} : HeapM A := λ _, None.

Definition read (l : loc) : HeapM doc := λ h,
  match h !! l with
  | Some d => Some (d, h)
  | None => None
  end.

Definition write (l : loc) (d : doc) : HeapM unit := λ h, Some (tt, <[l := d]> h).

(** [not doc] *)
Definition is_falsy (r : ref) : HeapM bool :=
  match r with
  | RNone => mret true
  | RDict l => d ← read l; mret (bool_decide (d = ∅))
  end.

(** A new object, at a location that no object occupies. *)
Definition alloc (d : doc) : HeapM loc := λ h,
  let l := fresh (dom h) in Some (l, <[l := d]> h).

(** [dict(doc)]: a new object with the same items. *)
Definition dict_copy (l : loc) : HeapM loc :=
  d ← read l; alloc d.

(** [k in doc] *)
Definition dict_contains (l : loc) (k : string) : HeapM bool :=
  d ← read l; mret (bool_decide (is_Some (d !! k))).

(** [doc.pop(k)] *)
Definition dict_pop (l : loc) (k : string) : HeapM value :=
  d ← read l;
  match d !! k with
  | Some v => write l (delete k d);; mret v
  | None => fail
  end.

(** [doc[k] = v] *)
Definition dict_setitem (l : loc) (k : string) (v : value) : HeapM unit :=
  d ← read l; write l (<[k := v]> d).

(** [list(doc.items())] *)
Definition dict_items (l : loc) : HeapM (list (string * value)) :=
  d ← read l; mret (map_to_list d).

Fixpoint for_each {A} (body : A → HeapM unit) (xs : list A) : HeapM unit :=
  match xs with
  | [] => mret tt
  | x :: xs' => body x;; for_each body xs'
  end.

Definition serialize_doc {R : PyRepr} (doc : ref) : HeapM ref :=
  falsy ← is_falsy doc;
  if (falsy : bool) then mret doc
  else
    match doc with
    | RNone => mret doc
    | RDict l =>
        doc ← dict_copy l;
        has_id ← dict_contains doc "_id";
        (if (has_id : bool)
         then v ← dict_pop doc "_id"; dict_setitem doc "id" (VStr (py_str v))
         else mret tt);;
        items ← dict_items doc;
        for_each (λ kv, if is_ObjectId kv.2
                        then dict_setitem doc kv.1 (VStr (py_str kv.2))
                        else mret tt) items;;
        mret (RDict doc)
    end.

End Obj.

(** ** The store adapter

    Module [database] is not part of these sources; the handlers see it
    through this interface.  [S] is the state of the store behind it. *)

(** The object [db]. *)
Record Db (S : Type) := {
  (** [db.name], when the attribute exists *)
  db_name : option value;
  (** [db.list_collection_names()] *)
  list_collection_names : S → result (list string) * S;
  (** [db.newsitem.find_one(filter)] *)
  newsitem_find_one : doc → S → result (option doc) * S;
}.
Arguments db_name {S}.
Arguments list_collection_names {S}.
Arguments newsitem_find_one {S}.

Record Database (S : Type) := {
  (** the exception [from database import ...] raises, if any *)
  import_error : option exn;
  (** the module's [db]; [None] when it was left uninitialised *)
  db : option (Db S);
  (** [get_documents(collection, filter, limit)] *)
  get_documents : string → doc → Z → S → result (list doc) * S;
  (** [create_document(collection, data)] *)
  create_document : string → doc → S → result string * S;
}.
Arguments import_error {S}.
Arguments db {S}.
Arguments get_documents {S}.
Arguments create_document {S}.

(** One entry per call that reaches the adapter. *)
Inductive Call : Type :=
| CallGetDocuments (collection : string) (filter : doc) (limit : Z)
| CallCreateDocument (collection : string) (data : doc)
| CallFindOne (filter : doc)
| CallListCollectionNames.

(** What a handler runs against: the store, the calls made so far, and the
    process environment. *)
Record World (S : Type) := mkWorld {
  store : S;
  calls : list Call;
  environ : gmap string string;
}.
Arguments mkWorld {S}.
Arguments store {S}.
Arguments calls {S}.
Arguments environ {S}.

(** ** The handler monad *)

Definition M (S A : Type) : Type := World S → result A * World S.

#[global] Instance M_ret {S} : MRet (M S) := λ A a w, (Ok a, w).

#[global] Instance M_bind {S} : MBind (M S) := λ A B k m w,
  match m w with
  | (Ok a, w') => k a w'
  | (Raise e, w') => (Raise e, w')
  end.

(** [raise e] *)
Definition raise {S A} (e : exn) : M S A := λ w, (Raise e, w).

(** [try: body / except Exception as e: handler(e)] *)
Definition try_except {S A} (body : M S A) (handler : exn → M S A) : M S A :=
  λ w, match body w with
       | (Ok a, w') => (Ok a, w')
       | (Raise e, w') => handler e w'
       end.

Definition lift_result {S A} (r : result A) : M S A := λ w, (r, w).

(** Run an adapter operation and record the call. *)
Definition adapter_call {S A} (c : Call) (op : S → result A * S) : M S A :=
  λ w, let '(r, s') := op (store w) in
       (r, mkWorld s' (calls w ++ [c]) (environ w)).

(** ** Request bodies and the [NewsCreate] model *)

(** A parsed JSON request body.  A number keeps its literal. *)
Inductive json : Type :=
| JNull
| JBool (b : bool)
| JNumber (literal : string)
| JString (s : string)
| JArray (l : list json)
| JObject (m : gmap string json).

(** The validation library's conversions for the field types [str] and
    [bool].  Which non-string and non-boolean inputs they coerce is the
    library's business; the model only records that it has them. *)
Class FieldTypes := {
  validate_str : json → option string;
  validate_bool : json → option bool;
}.

Record NewsCreate := mkNewsCreate {
  title_en : string;
  title_ar : string;
  body_en : option string;
  body_ar : option string;
  image_url : option string;
  tag : option string;
  featured : bool;
}.

Section Validation.
Context {F : FieldTypes}.

(** A field declared [name: str]. *)
Definition required_str (body : gmap string json) (name : string) : option string :=
  match body !! name with
  | Some j => validate_str j
  | None => None
  end.

(** A field declared [name: Optional[str] = None]. *)
Definition optional_str (body : gmap string json) (name : string) : option (option string) :=
  match body !! name with
  | None | Some JNull => Some None
  | Some j => Some <$> validate_str j
  end.

(** A field declared [name: bool = False]. *)
Definition bool_default_false (body : gmap string json) (name : string) : option bool :=
  match body !! name with
  | None => Some false
  | Some j => validate_bool j
  end.

Definition field_error {A} (name : string) (o : option A) : list string :=
  match o with Some _ => [] | None => [name] end.

(** Validation of a request body against [NewsCreate]: the model on
    success, the rejected fields otherwise.  Keys that name no field are
    ignored. *)
Definition NewsCreate_validate (body : json) : result NewsCreate :=
  match body with
  | JObject m =>
      let t_en := required_str m "title_en" in
      let t_ar := required_str m "title_ar" in
      let b_en := optional_str m "body_en" in
      let b_ar := optional_str m "body_ar" in
      let img := optional_str m "image_url" in
      let tg := optional_str m "tag" in
      let ft := bool_default_false m "featured" in
      match t_en, t_ar, b_en, b_ar, img, tg, ft with
      | Some a, Some b, Some c, Some d, Some e, Some f, Some g =>
          Ok (mkNewsCreate a b c d e f g)
      | _, _, _, _, _, _, _ =>
          Raise (RequestValidationError
                   (field_error "title_en" t_en ++ field_error "title_ar" t_ar
                    ++ field_error "body_en" b_en ++ field_error "body_ar" b_ar
                    ++ field_error "image_url" img ++ field_error "tag" tg
                    ++ field_error "featured" ft))
      end
  | _ => Raise (RequestValidationError ["body"])
  end.

End Validation.

Definition optional_value (o : option string) : value :=
  match o with Some s => VStr s | None => VNone end.

(** [item.model_dump()] *)
Definition model_dump (item : NewsCreate) : doc :=
  {[ "title_en" := VStr (title_en item);
     "title_ar" := VStr (title_ar item);
     "body_en" := optional_value (body_en item);
     "body_ar" := optional_value (body_ar item);
     "image_url" := optional_value (image_url item);
     "tag" := optional_value (tag item);
     "featured" := VBool (featured item) ]}.

(** ** The seed records *)

Definition sample_automation : doc :=
  {[ "title_en" := VStr "AIO launches next-gen automation suite";
     "title_ar" := VStr "إطلاق حزمة الأتمتة من الجيل التالي من AIO";
     "body_en" := VStr "We introduced new AI agents that cut process time by 60%.";
     "body_ar" := VStr "قدمنا وكلاء ذكاء اصطناعي جدد يقلّصون زمن العمليات بنسبة 60٪.";
     "tag" := VStr "Product";
     "featured" := VBool true;
     "image_url" := VStr "https://images.unsplash.com/photo-1555949963-aa79dcee981d?q=80&w=1400&auto=format&fit=crop" ]}.

Definition sample_partnership : doc :=
  {[ "title_en" := VStr "AIO partners with leading cloud provider";
     "title_ar" := VStr "شراكة AIO مع مزود سحابي رائد";
     "body_en" := VStr "This strategic partnership accelerates deployments across MENA.";
     "body_ar" := VStr "هذه الشراكة الإستراتيجية تسرّع عمليات النشر في منطقة الشرق الأوسط وشمال أفريقيا.";
     "tag" := VStr "Press";
     "featured" := VBool false;
     "image_url" := VStr "https://images.unsplash.com/photo-1518779578993-ec3579fee39f?q=80&w=1400&auto=format&fit=crop" ]}.

Definition sample_certification : doc :=
  {[ "title_en" := VStr "ISO 27001 certification achieved";
     "title_ar" := VStr "الحصول على شهادة ISO 27001";
     "body_en" := VStr "Security remains our top priority as we scale.";
     "body_ar" := VStr "لا تزال الحماية أولويتنا القصوى مع توسعنا.";
     "tag" := VStr "Security";
     "featured" := VBool true;
     "image_url" := VStr "https://images.unsplash.com/photo-1556741533-f6acd6477f8e?q=80&w=1400&auto=format&fit=crop" ]}.

Definition samples : list doc :=
  [sample_automation; sample_partnership; sample_certification].

(** ** Route handlers *)

Section Handlers.
Context {S : Type} (database : Database S) {R : PyRepr}.

(** [from database import ...] *)
Definition import_database : M S unit :=
  match import_error database with
  | Some e => raise e
  | None => mret tt
  end.

(** [os.getenv(name)] *)
Definition getenv (name : string) : M S (option string) :=
  λ w, (Ok (environ w !! name), w).

(** Truth value of what [os.getenv] returns. *)
Definition env_truthy (o : option string) : bool :=
  match o with
  | Some (String _ _) => true
  | Some EmptyString | None => false
  end.

Definition call_get_documents (collection : string) (filter : doc) (limit : Z)
  : M S (list doc) :=
  adapter_call (CallGetDocuments collection filter limit)
               (get_documents database collection filter limit).

Definition call_create_document (collection : string) (data : doc) : M S string :=
  adapter_call (CallCreateDocument collection data)
               (create_document database collection data).

Definition call_find_one (d : Db S) (filter : doc) : M S (option doc) :=
  adapter_call (CallFindOne filter) (newsitem_find_one d filter).

Definition call_list_collection_names (d : Db S) : M S (list string) :=
  adapter_call CallListCollectionNames (list_collection_names d).

(** *** [GET /test] *)

Definition initial_response : doc :=
  {[ "backend" := VStr "✅ Running";
     "database" := VStr "❌ Not Available";
     "database_url" := VNone;
     "database_name" := VNone;
     "connection_status" := VStr "Not Connected";
     "collections" := VList [] ]}.

(** The branch [if db is not None]. *)
Definition probe_db (d : Db S) (response : doc) : M S doc :=
  let response := <["database" := VStr "✅ Available"]> response in
  let response := <["database_url" := VStr "✅ Configured"]> response in
  let response :=
    <["database_name" := match db_name d with
                         | Some n => n
                         | None => VStr "✅ Connected"
                         end]> response in
  let response := <["connection_status" := VStr "Connected"]> response in
  try_except
    (collections ← call_list_collection_names d;
     let response := <["collections" := VList (VStr <$> take 10 collections)]> response in
     mret (<["database" := VStr "✅ Connected & Working"]> response))
    (λ e, mret (<["database" :=
                    VStr ("⚠️  Connected but Error: " +:+ str_prefix 50 (exn_str e))]>
                  response)).

Definition env_report (o : option string) : value :=
  if env_truthy o then VStr "✅ Set" else VStr "❌ Not Set".

Definition test_database : M S value :=
  let response := initial_response in
  response ←
    try_except
      (import_database;;
       match db database with
       | Some d => probe_db d response
       | None => mret (<["database" := VStr "⚠️  Available but not initialized"]> response)
       end)
      (λ e,
         if is_ImportError e
         then mret (<["database" :=
                        VStr "❌ Database module not found (run enable-database first)"]>
                      response)
         else mret (<["database" := VStr ("❌ Error: " +:+ str_prefix 50 (exn_str e))]>
                      response));
  url ← getenv "DATABASE_URL";
  let response := <["database_url" := env_report url]> response in
  name ← getenv "DATABASE_NAME";
  let response := <["database_name" := env_report name]> response in
  mret (VDict response).

(** *** [GET /api/news] *)

Definition list_news (limit : Z) (featured : option bool) : M S value :=
  try_except
    (import_database;;
     let filter_dict : doc := ∅ in
     let filter_dict :=
       match featured with
       | Some b => <["featured" := VBool b]> filter_dict
       | None => filter_dict
       end in
     items ← call_get_documents "newsitem" filter_dict limit;
     mret (VList ((λ i, VDict (serialize_doc i)) <$> items)))
    (λ e, raise (HTTPException 500 (exn_str e))).

(** *** [GET /api/news/featured] *)

Definition featured_news (limit : Z) : M S value :=
  list_news limit (Some true).

(** *** [GET /api/news/{news_id}] *)

(** [not item] for what [find_one] returns. *)
Definition item_is_falsy (item : option doc) : bool :=
  match item with
  | None => true
  | Some d => bool_decide (d = ∅)
  end.

Definition get_news_item (news_id : string) : M S value :=
  try_except
    (import_database;;
     d ← match db database with
         | Some d => mret d
         | None => raise (AttributeError "'NoneType' object has no attribute 'newsitem'")
         end;
     oid ← lift_result (ObjectId_new news_id);
     item ← call_find_one d {[ "_id" := VOid oid ]};
     if item_is_falsy item
     then raise (HTTPException 404 "News item not found")
     else mret (VDict (serialize_doc (default ∅ item))))
    (λ e, raise (HTTPException 500 (exn_str e))).

(** *** [POST /api/news] *)

Definition create_news (item : NewsCreate) : M S value :=
  try_except
    (import_database;;
     new_id ← call_create_document "newsitem" (model_dump item);
     mret (VDict {[ "id" := VStr new_id; "status" := VStr "created" ]}))
    (λ e, raise (HTTPException 500 (exn_str e))).

(** *** [POST /api/news/seed] *)

(** [for s in samples: ids.append(create_document("newsitem", s))] *)
Fixpoint seed_loop (ss : list doc) (ids : list string) : M S (list string) :=
  match ss with
  | [] => mret ids
  | s :: rest =>
      new_id ← call_create_document "newsitem" s;
      seed_loop rest (ids ++ [new_id])
  end.

Definition seed_news : M S value :=
  try_except
    (import_database;;
     ids ← seed_loop samples [];
     mret (VDict {[ "inserted" := VInt (Z.of_nat (length ids));
                    "ids" := VList (VStr <$> ids) ]}))
    (λ e, raise (HTTPException 500 (exn_str e))).

(** *** Routes: query defaults and body validation *)

Definition GET_api_news (limit : option Z) (featured : option bool) : M S value :=
  list_news (default 12 limit) featured.

Definition GET_api_news_featured (limit : option Z) : M S value :=
  featured_news (default 6 limit).

Definition GET_api_news_id (news_id : string) : M S value :=
  get_news_item news_id.

Definition POST_api_news {F : FieldTypes} (body : json) : M S value :=
  match NewsCreate_validate body with
  | Ok item => create_news item
  | Raise e => raise e
  end.

Definition POST_api_news_seed : M S value := seed_news.

Definition GET_test : M S value := test_database.

End Handlers.

(** ** An in-memory store behind the adapter interface *)

Module MemStore.

(** Modelled from the spec: the state of the document store behind module
    [database], which is absent from the sources.  Section 4.2 describes
    collections of records addressed by name and store-assigned
    identifiers; the counter numbers the identifiers handed out so far. *)
Record Store := mkStore {
  collections : gmap string (list doc);
  next_oid : N;
}.

Definition empty : Store := mkStore ∅ 0.

Definition hex_digit (n : N) : ascii :=
  if (n <? 10)%N then ascii_of_N (48 + n) else ascii_of_N (87 + n).

(** The [width] low hexadecimal digits of [n], most significant first. *)
Fixpoint hex_fixed (width : nat) (n : N) : string :=
  match width with
  | O => EmptyString
  | Datatypes.S w => hex_fixed w (n / 16)%N +:+ String (hex_digit (n mod 16)%N) EmptyString
  end.

(** Modelled from the spec: the store-generated identifier of the [n]-th
    record ("a store-generated unique string identifying a document"). *)
Definition nth_oid (n : N) : ObjectId := mkObjectId (hex_fixed 24 n).

(** Equality of two field values as a filter condition sees it. *)
Definition scalar_eqb (a b : value) : bool :=
  match a, b with
  | VNone, VNone => true
  | VBool x, VBool y => bool_decide (x = y)
  | VInt x, VInt y => bool_decide (x = y)
  | VStr x, VStr y => bool_decide (x = y)
  | VOid x, VOid y => bool_decide (oid_hex x = oid_hex y)
  | _, _ => false
  end.

(** Modelled from the spec: a record satisfies a filter when it carries
    every field of the filter with the filter's value ("filters exactly on
    that boolean field"). *)
Definition matches (filter d : doc) : bool :=
  forallb (λ kv, match d !! kv.1 with
                 | Some v => scalar_eqb kv.2 v
                 | None => false
                 end) (map_to_list filter).

Definition records (collection : string) (s : Store) : list doc :=
  default [] (collections s !! collection).

(** Modelled from the spec: [get_documents(collection, filter, limit)], "a
    filtered query with a result-count cap", in the order the store keeps
    the records. *)
Definition mem_get_documents (collection : string) (filter : doc) (limit : Z) (s : Store)
  : result (list doc) * Store :=
  (Ok (take (Z.to_nat limit) (List.filter (matches filter) (records collection s))), s).

(** Modelled from the spec: [create_document(collection, data)], "an insert
    call returning a new identifier": the record is stored under a fresh
    identifier, whose string form is returned. *)
Definition mem_create_document (collection : string) (data : doc) (s : Store)
  : result string * Store :=
  let oid := nth_oid (next_oid s) in
  let record := <["_id" := VOid oid]> data in
  (Ok (oid_hex oid),
   mkStore (<[collection := records collection s ++ [record]]> (collections s))
           (next_oid s + 1)).

(** Modelled from the spec: "direct single-record lookup by identifier,
    returning empty when absent". *)
Definition mem_find_one (filter : doc) (s : Store) : result (option doc) * Store :=
  (Ok (head (List.filter (matches filter) (records "newsitem" s))), s).

(** Modelled from the spec: [list_collection_names()], the names of the
    collections the store holds. *)
Definition mem_list_collection_names (s : Store) : result (list string) * Store :=
  (Ok (elements (dom (collections s))), s).

Definition mem_db : Db Store :=
  {| db_name := Some (VStr "news");
     list_collection_names := mem_list_collection_names;
     newsitem_find_one := mem_find_one |}.

(** Modelled from the spec: the adapter of section 4.2 over the in-memory
    store, importable and initialised. *)
Definition adapter : Database Store :=
  {| import_error := None;
     db := Some mem_db;
     get_documents := mem_get_documents;
     create_document := mem_create_document |}.

Definition world (s : Store) : World Store := mkWorld s [] ∅.

End MemStore.

(** A printer for containers, for running the handlers on concrete data. *)
Definition repr_placeholder : PyRepr := λ _, "<container>".

(** A printer that writes a string between single quotes, as [repr] does
    for a string without quotes, backslashes or control characters. *)
Definition repr_quoted : PyRepr := λ v,
  match v with
  | VStr s => "'" +:+ s +:+ "'"
  | _ => "<container>"
  end.

(** Field conversions that accept exactly JSON strings and JSON booleans. *)
Definition strict_fields : FieldTypes :=
  {| validate_str := λ j, match j with JString s => Some s | _ => None end;
     validate_bool := λ j, match j with JBool b => Some b | _ => None end |}.

(** ** Vocabulary of the properties *)

(** What the loop of [serialize_doc] does to one value. *)
Definition stringify {R : PyRepr} (v : value) : value :=
  if is_ObjectId v then VStr (py_str v) else v.

(** What the renaming of [_id] does to a dictionary. *)
Definition rename_id {R : PyRepr} (d : doc) : doc :=
  match d !! "_id" with
  | Some v => <["id" := VStr (py_str v)]> (delete "_id" d)
  | None => d
  end.

(** The filter of the list endpoint: the one field [featured] when the
    parameter is given, nothing otherwise. *)
Definition news_filter (featured : option bool) : doc :=
  match featured with
  | Some b => {[ "featured" := VBool b ]}
  | None => ∅
  end.

(** [creates database ds s ids s']: inserting the records [ds] one after the
    other, from store state [s], succeeds each time, returns the identifiers
    [ids] and leaves the store in state [s']. *)
Inductive creates {S} (database : Database S) : list doc → S → list string → S → Prop :=
| creates_nil s : creates database [] s [] s
| creates_cons d ds s new_id s1 ids s2 :
    create_document database "newsitem" d s = (Ok new_id, s1) →
    creates database ds s1 ids s2 →
    creates database (d :: ds) s (new_id :: ids) s2.

(** The body of the seed endpoint's answer. *)
Definition seed_response (ids : list string) : value :=
  VDict {[ "inserted" := VInt (Z.of_nat (length ids));
           "ids" := VList (VStr <$> ids) ]}.

(** The behaviours of the store adapter that the diagnostic endpoint tells
    apart. *)
Inductive behaviour : Type :=
| Unavailable                       (* the module cannot be imported *)
| ImportRaises (e : exn)            (* importing it raises something else *)
| Uninitialised                     (* imported, but [db] is [None] *)
| ListingRaises (e : exn)           (* [list_collection_names] raises *)
| Working (names : list string).

Definition behaviour_of {S} (database : Database S) (s : S) : behaviour :=
  match import_error database with
  | Some e => if is_ImportError e then Unavailable else ImportRaises e
  | None =>
      match db database with
      | None => Uninitialised
      | Some d =>
          match (list_collection_names d s).1 with
          | Ok names => Working names
          | Raise e => ListingRaises e
          end
      end
  end.

(** The status string the diagnostic endpoint reports for each behaviour. *)
Definition database_line (b : behaviour) : string :=
  match b with
  | Unavailable => "❌ Database module not found (run enable-database first)"
  | ImportRaises e => "❌ Error: " +:+ str_prefix 50 (exn_str e)
  | Uninitialised => "⚠️  Available but not initialized"
  | ListingRaises e => "⚠️  Connected but Error: " +:+ str_prefix 50 (exn_str e)
  | Working _ => "✅ Connected & Working"
  end.

(** The collection names it reports. *)
Definition reported_collections (b : behaviour) : list string :=
  match b with
  | Working names => take 10 names
  | _ => []
  end.

(** Whether a request body is an object that carries the field [name]. *)
Definition has_field (body : json) (name : string) : bool :=
  match body with
  | JObject m => match m !! name with Some _ => true | None => false end
  | _ => false
  end.

(** What the conversions do on inputs of the declared type: a JSON string is
    accepted as itself, and so is a JSON boolean. *)
Class LawfulFieldTypes {F : FieldTypes} : Prop := {
  validate_str_string s : validate_str (JString s) = Some s;
  validate_bool_bool b : validate_bool (JBool b) = Some b;
}.

Definition is_str (o : option json) : bool :=
  match o with Some (JString _) => true | _ => false end.

Definition is_optional_str (o : option json) : bool :=
  match o with None | Some JNull | Some (JString _) => true | _ => false end.

Definition is_optional_bool (o : option json) : bool :=
  match o with None | Some (JBool _) => true | _ => false end.

(** A valid NewsItem payload: both titles are strings, the four optional
    fields are strings, null or absent, and [featured] is a boolean or
    absent. *)
Definition valid_payload (m : gmap string json) : bool :=
  is_str (m !! "title_en") && is_str (m !! "title_ar")
  && is_optional_str (m !! "body_en") && is_optional_str (m !! "body_ar")
  && is_optional_str (m !! "image_url") && is_optional_str (m !! "tag")
  && is_optional_bool (m !! "featured").

Definition NewsCreate_fields : list string :=
  ["title_en"; "title_ar"; "body_en"; "body_ar"; "image_url"; "tag"; "featured"].

Definition NewsCreate_defaults : doc :=
  {[ "body_en" := VNone; "body_ar" := VNone; "image_url" := VNone;
     "tag" := VNone; "featured" := VBool false ]}.

(** The Python value of a JSON string, boolean or null; a valid payload has
    nothing else under a declared field. *)
Definition scalar_value (j : json) : value :=
  match j with
  | JBool b => VBool b
  | JString s => VStr s
  | _ => VNone
  end.

(** The payload with unknown fields removed and the defaults applied to the
    fields it leaves out. *)
Definition expected_document (m : gmap string json) : doc :=
  (scalar_value <$> filter (λ kv, kv.1 ∈ NewsCreate_fields) m) ∪ NewsCreate_defaults.

(** Whether a record is marked as featured. *)
Definition is_featured (d : doc) : bool :=
  match d !! "featured" with
  | Some (VBool true) => true
  | _ => false
  end.

(** The three records that seeding adds to the in-memory store. *)
Definition seeded (s : MemStore.Store) : list doc :=
  [ <["_id" := VOid (MemStore.nth_oid (MemStore.next_oid s))]> sample_automation;
    <["_id" := VOid (MemStore.nth_oid (MemStore.next_oid s + 1))]> sample_partnership;
    <["_id" := VOid (MemStore.nth_oid (MemStore.next_oid s + 2))]> sample_certification ].

(** The store after seeding: three inserts, one per sample, in order. *)
Definition seed_store (s : MemStore.Store) : MemStore.Store :=
  let s := (MemStore.mem_create_document "newsitem" sample_automation s).2 in
  let s := (MemStore.mem_create_document "newsitem" sample_partnership s).2 in
  (MemStore.mem_create_document "newsitem" sample_certification s).2.

(** The identifiers that seeding the in-memory store returns. *)
Definition seeded_ids (s : MemStore.Store) : list string :=
  [ oid_hex (MemStore.nth_oid (MemStore.next_oid s));
    oid_hex (MemStore.nth_oid (MemStore.next_oid s + 1));
    oid_hex (MemStore.nth_oid (MemStore.next_oid s + 2)) ].


(** The frame property of [serialize_doc] in its first wording: every key
    other than [_id] keeps its value, an identifier becoming its string. *)
Definition keeps_every_other_key {R : PyRepr} (d out : doc) : Prop :=
  ∀ k v, k ≠ "_id" → d !! k = Some v → out !! k = Some (stringify v).

(** The same, leaving [id] aside when the renaming of [_id] writes it. *)
Definition keeps_other_keys {R : PyRepr} (d out : doc) : Prop :=
  ∀ k v, k ≠ "_id" → (k ≠ "id" ∨ d !! "_id" = None) →
         d !! k = Some v → out !! k = Some (stringify v).

(** A record with both an internal identifier and a field named [id]. *)
Definition doc_with_both_ids : doc :=
  {[ "_id" := VOid (mkObjectId "65a1b2c3d4e5f60718293a4b"); "id" := VInt 5 ]}.

(** ** The route table

    The handlers in the order their decorators register them.  A path is
    the list of its segments; [{news_id}] stands for any one non-empty
    segment.  A request goes to the first route whose path and method both
    match; when only paths match, the answer is 405, and 404 when nothing
    does. *)

Inductive http_method : Type := GET | POST.

#[global] Instance http_method_eq_dec : EqDecision http_method.
Proof. solve_decision. Defined.








(** ** The [User] schema of [schemas.py] *)

(** The validation library's conversion for the field type [int]. *)
Class IntType := validate_int : json → option Z.

Record User := mkUser {
  user_name : string;
  user_email : string;
  user_address : string;
  user_age : option Z;
  user_is_active : bool;
}.

(** A field declared [name: Optional[int] = Field(None, ge=lo, le=hi)]. *)
Definition optional_int_between {I : IntType} (lo hi : Z)
    (body : gmap string json) (name : string) : option (option Z) :=
  match body !! name with
  | None | Some JNull => Some None
  | Some j =>
      match validate_int j with
      | Some n => if (lo <=? n) && (n <=? hi) then Some (Some n) else None
      | None => None
      end
  end.

(** A field declared [name: bool = Field(True, ...)]. *)
Definition bool_default_true {F : FieldTypes} (body : gmap string json) (name : string)
  : option bool :=
  match body !! name with
  | None => Some true
  | Some j => validate_bool j
  end.

Definition User_validate {F : FieldTypes} {I : IntType} (body : json) : result User :=
  match body with
  | JObject m =>
      let nm := required_str m "name" in
      let em := required_str m "email" in
      let ad := required_str m "address" in
      let ag := optional_int_between 0 120 m "age" in
      let ac := bool_default_true m "is_active" in
      match nm, em, ad, ag, ac with
      | Some a, Some b, Some c, Some d, Some e => Ok (mkUser a b c d e)
      | _, _, _, _, _ =>
          Raise (RequestValidationError
                   (field_error "name" nm ++ field_error "email" em
                    ++ field_error "address" ad ++ field_error "age" ag
                    ++ field_error "is_active" ac))
      end
  | _ => Raise (RequestValidationError ["body"])
  end.

(** ** Data for running the handlers *)

(** The JSON object that carries a [NewsCreate] model. *)
Definition optional_json (o : option string) : json :=
  match o with Some s => JString s | None => JNull end.

Definition NewsCreate_json (item : NewsCreate) : gmap string json :=
  {[ "title_en" := JString (title_en item);
     "title_ar" := JString (title_ar item);
     "body_en" := optional_json (body_en item);
     "body_ar" := optional_json (body_ar item);
     "image_url" := optional_json (image_url item);
     "tag" := optional_json (tag item);
     "featured" := JBool (featured item) ]}.

(** An adapter whose module cannot be imported: the import raises [e]. *)
Definition unimportable (e : exn) : Database unit :=
  {| import_error := Some e;
     db := None;
     get_documents := λ _ _ _ s, (Ok [], s);
     create_document := λ _ _ s, (Ok EmptyString, s) |}.

(** An adapter over a store that is down: every operation raises [e]. *)
Definition store_down (e : exn) : Database unit :=
  {| import_error := None;
     db := Some {| db_name := None;
                   list_collection_names := λ s, (Raise e, s);
                   newsitem_find_one := λ _ s, (Raise e, s) |};
     get_documents := λ _ _ _ s, (Raise e, s);
     create_document := λ _ _ s, (Raise e, s) |}.

(** An adapter imported before its [db] was initialised. *)
Definition uninitialised : Database unit :=
  {| import_error := None;
     db := None;
     get_documents := λ _ _ _ s, (Raise (OtherException "Database not available"), s);
     create_document := λ _ _ s, (Raise (OtherException "Database not available"), s) |}.

(** An adapter that counts its inserts and refuses them from the [n]-th on. *)
Definition full_after (n : nat) : Database nat :=
  {| import_error := None;
     db := None;
     get_documents := λ _ _ _ s, (Ok [], s);
     create_document := λ _ _ s,
       if (s <? n)%nat then (Ok (pretty s), Datatypes.S s)
       else (Raise (OtherException "store is full"), s) |}.

(** An [int] conversion that accepts exactly the JSON numbers written as
    decimal digits, with an optional minus sign. *)
Fixpoint digits_value (acc : Z) (s : string) : option Z :=
  match s with
  | EmptyString => Some acc
  | String c rest =>
      let n := N_of_ascii c in
      if ((48 <=? n) && (n <=? 57))%N
      then digits_value (10 * acc + Z.of_N (n - 48)) rest
      else None
  end.

Definition decimal_int : IntType := λ j,
  match j with
  | JNumber (String "-" (String c rest)) => Z.opp <$> digits_value 0 (String c rest)
  | JNumber (String c rest) => digits_value 0 (String c rest)
  | _ => None
  end.

(** A handler's outcome that is a value or an [HTTPException] with status
    500. *)
Definition ok_or_500 (r : result value) : Prop :=
  (∃ v, r = Ok v) ∨ (∃ detail, r = Raise (HTTPException 500 detail)).

(** An in-memory store that holds one news record, whose identifier has a
    letter among its digits. *)
Definition store_with_lettered_id : MemStore.Store :=
  MemStore.mkStore
    {[ "newsitem" := [ <["_id" := VOid (mkObjectId "00000000000000000000000a")]>
                         sample_partnership ] ]}
    11.

(** A [NewsCreate] model with some optional fields left out. *)
Definition sample_item : NewsCreate :=
  mkNewsCreate "Hello" "مرحبا" (Some "Body") None None (Some "Update") true.

(** ** Vocabulary of the revised properties *)





(** What is left of a text after a cut between two characters: it does not
    begin in the middle of one. *)
Definition at_char_boundary (rest : string) : Prop :=
  match rest with
  | EmptyString => True
  | String c _ => is_continuation c = false
  end.

(** * Properties *)

(** ** Running the handler monad *)

Section MonadLemmas.
Context {S : Type}.

Lemma bind_ok {A B} (m : M S A) (k : A → M S B) w a w' :
  m w = (Ok a, w') → (m ≫= k) w = k a w'.
Proof. intros Hm. unfold mbind, M_bind. by rewrite Hm. Qed.

Lemma bind_raise {A B} (m : M S A) (k : A → M S B) w e w' :
  m w = (Raise e, w') → (m ≫= k) w = (Raise e, w').
Proof. intros Hm. unfold mbind, M_bind. by rewrite Hm. Qed.

Lemma try_except_ok {A} (body : M S A) handler w a w' :
  body w = (Ok a, w') → try_except body handler w = (Ok a, w').
Proof. intros Hb. unfold try_except. by rewrite Hb. Qed.

Lemma try_except_raise {A} (body : M S A) handler w e w' :
  body w = (Raise e, w') → try_except body handler w = handler e w'.
Proof. intros Hb. unfold try_except. by rewrite Hb. Qed.

End MonadLemmas.

(** ** [serialize_doc]: contents *)

Section SerializeContents.
Context {R : PyRepr}.

Lemma stringify_not_oid v o : stringify v ≠ VOid o.
Proof. unfold stringify. destruct v; simpl; congruence. Qed.

Lemma stringify_oid o : stringify (VOid o) = VStr (oid_hex o).
Proof. reflexivity. Qed.

Lemma stringify_other v : is_ObjectId v = false → stringify v = v.
Proof. unfold stringify. by intros ->. Qed.

Lemma stringify_step_lookup d k v :
  d !! k = Some v → stringify_step d (k, v) !! k = Some (stringify v).
Proof.
  intros Hk. unfold stringify_step, stringify. simpl.
  destruct (is_ObjectId v); [apply lookup_insert_eq | done].
Qed.

Lemma stringify_step_other d kv k :
  kv.1 ≠ k → stringify_step d kv !! k = d !! k.
Proof.
  intros Hne. unfold stringify_step.
  destruct (is_ObjectId kv.2); [by rewrite lookup_insert_ne | done].
Qed.

(** Keys outside the snapshot are not touched by the loop. *)
Lemma stringify_items_other items d k :
  k ∉ items.*1 → stringify_items items d !! k = d !! k.
Proof.
  unfold stringify_items. revert d.
  induction items as [|kv items IH]; intros d Hk; [done |].
  simpl in *. apply not_elem_of_cons in Hk as [Hne Hk].
  rewrite IH; [| done]. by apply stringify_step_other.
Qed.

(** A key of the snapshot ends with its value stringified. *)
Lemma stringify_items_member items d k v :
  NoDup items.*1 → (k, v) ∈ items → d !! k = Some v →
  stringify_items items d !! k = Some (stringify v).
Proof.
  unfold stringify_items. revert d.
  induction items as [|[k' v'] items IH]; intros d Hnd Hin Hd.
  - by apply elem_of_nil in Hin.
  - simpl in *. apply NoDup_cons in Hnd as [Hfresh Hnd].
    apply elem_of_cons in Hin as [Heq | Hin].
    + injection Heq as <- <-.
      pose proof (stringify_items_other items (stringify_step d (k, v)) k Hfresh) as Ho.
      unfold stringify_items in Ho. rewrite Ho.
      by apply stringify_step_lookup.
    + assert (k' ≠ k) as Hne.
      { intros ->. apply Hfresh. apply list_elem_of_fmap. by exists (k, v). }
      apply IH; [done | done |].
      by rewrite stringify_step_other.
Qed.

(** The loop over a snapshot of the dictionary maps [stringify] over it. *)
Lemma stringify_items_fmap d :
  stringify_items (map_to_list d) d = stringify <$> d.
Proof.
  apply map_eq. intros k. rewrite lookup_fmap.
  destruct (d !! k) as [v|] eqn:Hk; simpl.
  - apply stringify_items_member; [apply NoDup_fst_map_to_list | | done].
    by apply elem_of_map_to_list.
  - rewrite stringify_items_other; [done |].
    intros [[k' v'] [Heq Hin]]%list_elem_of_fmap. simpl in Heq. subst k'.
    apply elem_of_map_to_list in Hin. congruence.
Qed.

Lemma serialize_copy_fmap d : serialize_copy d = stringify <$> rename_id d.
Proof. unfold serialize_copy. apply stringify_items_fmap. Qed.

Lemma serialize_doc_fmap d : serialize_doc d = stringify <$> rename_id d.
Proof.
  unfold serialize_doc. destruct (decide (d = ∅)) as [-> | _].
  - unfold rename_id. rewrite lookup_empty. by rewrite fmap_empty.
  - apply serialize_copy_fmap.
Qed.

Lemma serialize_doc_empty : serialize_doc ∅ = ∅.
Proof. reflexivity. Qed.

(** The internal key is gone. *)
Lemma serialize_doc_no__id d : serialize_doc d !! "_id" = None.
Proof.
  rewrite serialize_doc_fmap, lookup_fmap. unfold rename_id.
  destruct (d !! "_id") as [v|] eqn:Hid.
  - rewrite lookup_insert_ne; [| done]. by rewrite lookup_delete_eq.
  - by rewrite Hid.
Qed.

(** The public key holds the string form of the internal identifier. *)
Lemma serialize_doc_id d v :
  d !! "_id" = Some v → serialize_doc d !! "id" = Some (VStr (py_str v)).
Proof.
  intros Hid. rewrite serialize_doc_fmap, lookup_fmap. unfold rename_id.
  rewrite Hid. by rewrite lookup_insert_eq.
Qed.

(** Every field that the renaming leaves alone carries its value, with
    an identifier replaced by its string form. *)
Lemma serialize_doc_field d k :
  k ≠ "_id" → (k ≠ "id" ∨ d !! "_id" = None) →
  serialize_doc d !! k = stringify <$> d !! k.
Proof.
  intros Hk Hid. rewrite serialize_doc_fmap, lookup_fmap. unfold rename_id.
  destruct (d !! "_id") as [v|] eqn:Hv; [| done].
  destruct Hid as [Hne | ?]; [| done].
  rewrite lookup_insert_ne; [| done]. by rewrite lookup_delete_ne.
Qed.

(** No field of the result holds an identifier object. *)
Lemma serialize_doc_no_oid d k o : serialize_doc d !! k ≠ Some (VOid o).
Proof.
  rewrite serialize_doc_fmap, lookup_fmap.
  destruct (rename_id d !! k) as [v|]; simpl; [| done].
  intros [= Hv]. by apply stringify_not_oid in Hv.
Qed.

(** The result has no key beyond those of the input and [id]. *)
Lemma serialize_doc_keys d k :
  is_Some (serialize_doc d !! k) → k = "id" ∨ is_Some (d !! k).
Proof.
  rewrite serialize_doc_fmap, lookup_fmap. unfold rename_id.
  destruct (d !! "_id") as [v|] eqn:Hv.
  - destruct (decide (k = "id")) as [-> | Hne]; [by left |].
    rewrite lookup_insert_ne; [| done].
    destruct (decide (k = "_id")) as [-> | Hne'].
    + rewrite lookup_delete_eq. simpl. by intros [? ?].
    + rewrite lookup_delete_ne; [| done]. rewrite fmap_is_Some. by right.
  - rewrite fmap_is_Some. by right.
Qed.

End SerializeContents.

(** ** [serialize_doc]: objects *)

Section SerializeObjects.
Context {R : PyRepr}.
Import Obj.

Lemma run_bind {A B} (m : HeapM A) (k : A → HeapM B) h a h' :
  m h = Some (a, h') → (m ≫= k) h = k a h'.
Proof. intros Hm. unfold mbind, HeapM_bind. by rewrite Hm. Qed.

Lemma run_read l d (h : heap) : h !! l = Some d → read l h = Some (d, h).
Proof. intros Hl. unfold read. by rewrite Hl. Qed.

Lemma run_setitem l k v d (h : heap) :
  h !! l = Some d → dict_setitem l k v h = Some (tt, <[l := <[k := v]> d]> h).
Proof.
  intros Hl. unfold dict_setitem. by rewrite (run_bind _ _ _ _ _ (run_read _ _ _ Hl)).
Qed.

Lemma run_pop l k v d (h : heap) :
  h !! l = Some d → d !! k = Some v →
  dict_pop l k h = Some (v, <[l := delete k d]> h).
Proof.
  intros Hl Hk. unfold dict_pop.
  rewrite (run_bind _ _ _ _ _ (run_read _ _ _ Hl)). by rewrite Hk.
Qed.

(** The loop, run on the object at [l], leaves every other object alone. *)
Lemma run_stringify_loop items l d (h : heap) :
  h !! l = Some d →
  for_each (λ kv, if is_ObjectId kv.2
                  then dict_setitem l kv.1 (VStr (py_str kv.2))
                  else mret tt) items h
  = Some (tt, <[l := stringify_items items d]> h).
Proof.
  revert d h. induction items as [|kv items IH]; intros d h Hl.
  - simpl. unfold mret, HeapM_ret. by rewrite insert_id.
  - cbn [for_each].
    assert ((if is_ObjectId kv.2
             then dict_setitem l kv.1 (VStr (py_str kv.2))
             else mret tt) h = Some (tt, <[l := stringify_step d kv]> h)) as Hstep.
    { unfold stringify_step. destruct (is_ObjectId kv.2).
      - by apply run_setitem.
      - unfold mret, HeapM_ret. by rewrite insert_id. }
    rewrite (run_bind _ _ _ _ _ Hstep).
    rewrite (IH (stringify_step d kv)); [| apply lookup_insert_eq].
    by rewrite insert_insert_eq.
Qed.

(** On a non-empty dictionary the function allocates one new object, fills
    it with the serialized contents and returns it; the heap is otherwise
    as before. *)
Lemma run_serialize_doc l d (h : heap) :
  h !! l = Some d → d ≠ ∅ →
  Obj.serialize_doc (RDict l) h
  = Some (RDict (fresh (dom h)), <[fresh (dom h) := serialize_copy d]> h).
Proof.
  intros Hl Hne. unfold Obj.serialize_doc.
  assert (is_falsy (RDict l) h = Some (false, h)) as Hf.
  { unfold is_falsy. rewrite (run_bind _ _ _ _ _ (run_read _ _ _ Hl)).
    unfold mret, HeapM_ret. by rewrite bool_decide_eq_false_2. }
  rewrite (run_bind _ _ _ _ _ Hf).
  set (l' := fresh (dom h)).
  assert (dict_copy l h = Some (l', <[l' := d]> h)) as Hc.
  { unfold dict_copy. by rewrite (run_bind _ _ _ _ _ (run_read _ _ _ Hl)). }
  rewrite (run_bind _ _ _ _ _ Hc).
  set (h1 := <[l' := d]> h).
  assert (h1 !! l' = Some d) as Hl' by apply lookup_insert_eq.
  assert (dict_contains l' "_id" h1
          = Some (bool_decide (is_Some (d !! "_id")), h1)) as Hin.
  { unfold dict_contains. by rewrite (run_bind _ _ _ _ _ (run_read _ _ _ Hl')). }
  rewrite (run_bind _ _ _ _ _ Hin).
  assert ((if bool_decide (is_Some (d !! "_id"))
           then v ← dict_pop l' "_id"; dict_setitem l' "id" (VStr (py_str v))
           else mret tt) h1 = Some (tt, <[l' := rename_id d]> h)) as Hren.
  { unfold rename_id. destruct (d !! "_id") as [v|] eqn:Hid.
    - rewrite bool_decide_eq_true_2; [| by eexists].
      rewrite (run_bind _ _ _ _ _ (run_pop _ _ _ _ _ Hl' Hid)).
      rewrite (run_setitem _ _ _ (delete "_id" d)); [| apply lookup_insert_eq].
      unfold h1. by rewrite !insert_insert_eq.
    - rewrite bool_decide_eq_false_2; [done |]. by intros [? ?]. }
  rewrite (run_bind _ _ _ _ _ Hren).
  set (h2 := <[l' := rename_id d]> h).
  assert (h2 !! l' = Some (rename_id d)) as Hl2 by apply lookup_insert_eq.
  assert (dict_items l' h2 = Some (map_to_list (rename_id d), h2)) as Hit.
  { unfold dict_items. by rewrite (run_bind _ _ _ _ _ (run_read _ _ _ Hl2)). }
  rewrite (run_bind _ _ _ _ _ Hit).
  rewrite (run_bind _ _ _ _ _ (run_stringify_loop _ _ _ _ Hl2)).
  unfold mret, HeapM_ret, h2, serialize_copy, rename_id.
  by rewrite insert_insert_eq.
Qed.

Lemma run_serialize_doc_empty l (h : heap) :
  h !! l = Some ∅ → Obj.serialize_doc (RDict l) h = Some (RDict l, h).
Proof.
  intros Hl. unfold Obj.serialize_doc, is_falsy.
  rewrite (run_bind _ _ _ _ _
             (run_bind _ _ _ _ _ (run_read _ _ _ Hl))).
  reflexivity.
Qed.

Lemma run_serialize_doc_None (h : heap) :
  Obj.serialize_doc RNone h = Some (RNone, h).
Proof. reflexivity. Qed.

End SerializeObjects.

(** ** Running the handlers *)

Section HandlerRuns.
Context {S : Type} (database : Database S) {R : PyRepr}.

Ltac run_handler :=
  unfold import_database, call_get_documents, call_create_document, call_find_one,
    call_list_collection_names, adapter_call, getenv;
  unfold try_except, mbind, M_bind, mret, M_ret, raise, lift_result.

Lemma news_filter_insert featured :
  match featured with
  | Some b => <["featured" := VBool b]> (∅ : doc)
  | None => ∅
  end = news_filter featured.
Proof. destruct featured; [apply insert_empty | done]. Qed.

(** [list_news] makes one [get_documents] call and serializes what it
    gets; any exception becomes a 500. *)
Lemma list_news_run limit featured w :
  import_error database = None →
  list_news database limit featured w
  = let call := CallGetDocuments "newsitem" (news_filter featured) limit in
    match get_documents database "newsitem" (news_filter featured) limit (store w) with
    | (Ok items, s') =>
        (Ok (VList ((λ i, VDict (serialize_doc i)) <$> items)),
         mkWorld s' (calls w ++ [call]) (environ w))
    | (Raise e, s') =>
        (Raise (HTTPException 500 (exn_str e)),
         mkWorld s' (calls w ++ [call]) (environ w))
    end.
Proof.
  intros Himp. unfold list_news. run_handler. rewrite Himp.
  rewrite news_filter_insert. cbv beta iota zeta.
  by destruct (get_documents _ _ _ _ _) as [[items | e] s'].
Qed.

Lemma list_news_import_error limit featured w e :
  import_error database = Some e →
  list_news database limit featured w = (Raise (HTTPException 500 (exn_str e)), w).
Proof. intros Himp. unfold list_news. run_handler. by rewrite Himp. Qed.

(** The lookup of a record that the store does not have: the 404 raised
    inside the [try] block is caught by its own [except Exception]. *)
Lemma get_news_item_absent news_id w d oid item s' :
  import_error database = None →
  db database = Some d →
  ObjectId_new news_id = Ok oid →
  newsitem_find_one d {[ "_id" := VOid oid ]} (store w) = (Ok item, s') →
  item_is_falsy item = true →
  get_news_item database news_id w
  = (Raise (HTTPException 500 "404: News item not found"),
     mkWorld s' (calls w ++ [CallFindOne {[ "_id" := VOid oid ]}]) (environ w)).
Proof.
  intros Himp Hdb Hoid Hfind Hfalsy. unfold get_news_item. run_handler.
  by rewrite Himp, Hdb, Hoid, Hfind, Hfalsy.
Qed.

Lemma get_news_item_found news_id w d oid item s' :
  import_error database = None →
  db database = Some d →
  ObjectId_new news_id = Ok oid →
  newsitem_find_one d {[ "_id" := VOid oid ]} (store w) = (Ok item, s') →
  item_is_falsy item = false →
  get_news_item database news_id w
  = (Ok (VDict (serialize_doc (default ∅ item))),
     mkWorld s' (calls w ++ [CallFindOne {[ "_id" := VOid oid ]}]) (environ w)).
Proof.
  intros Himp Hdb Hoid Hfind Hfalsy. unfold get_news_item. run_handler.
  by rewrite Himp, Hdb, Hoid, Hfind, Hfalsy.
Qed.

(** Whatever the adapter does, the lookup answers 200 or 500. *)
Lemma get_news_item_status news_id w :
  http_status (get_news_item database news_id w).1 = 200
  ∨ http_status (get_news_item database news_id w).1 = 500.
Proof.
  unfold get_news_item. run_handler.
  destruct (import_error database) as [e|]; [by right |].
  destruct (db database) as [d|]; [| by right].
  destruct (ObjectId_new news_id) as [oid | e]; [| by right].
  destruct (newsitem_find_one d _ (store w)) as [[item | e] s']; [| by right].
  destruct (item_is_falsy item); [by right | by left].
Qed.


Lemma list_news_ok limit featured w v w' :
  list_news database limit featured w = (Ok v, w') →
  ∃ items s',
    get_documents database "newsitem" (news_filter featured) limit (store w)
    = (Ok items, s')
    ∧ v = VList ((λ i, VDict (serialize_doc i)) <$> items).
Proof.
  destruct (import_error database) as [e|] eqn:Himp.
  - by rewrite (list_news_import_error _ _ _ _ Himp).
  - rewrite (list_news_run _ _ _ Himp). simpl.
    destruct (get_documents _ _ _ _ _) as [[items | e] s']; [| done].
    intros [= <- <-]. by exists items, s'.
Qed.

(** [create_news] hands [model_dump] to [create_document]. *)
Lemma create_news_run item w :
  import_error database = None →
  create_news database item w
  = let call := CallCreateDocument "newsitem" (model_dump item) in
    match create_document database "newsitem" (model_dump item) (store w) with
    | (Ok new_id, s') =>
        (Ok (VDict {[ "id" := VStr new_id; "status" := VStr "created" ]}),
         mkWorld s' (calls w ++ [call]) (environ w))
    | (Raise e, s') =>
        (Raise (HTTPException 500 (exn_str e)),
         mkWorld s' (calls w ++ [call]) (environ w))
    end.
Proof.
  intros Himp. unfold create_news. run_handler. rewrite Himp.
  cbv beta iota zeta.
  by destruct (create_document _ _ _ _) as [[new_id | e] s'].
Qed.

(** The loop of [seed_news], when every insert succeeds. *)
Lemma seed_loop_run ss ids w new_ids s' :
  creates database ss (store w) new_ids s' →
  seed_loop database ss ids w
  = (Ok (ids ++ new_ids),
     mkWorld s' (calls w ++ (CallCreateDocument "newsitem" <$> ss)) (environ w)).
Proof.
  revert ids w new_ids. induction ss as [|d ss IH]; intros ids w new_ids Hc.
  - inversion Hc; subst. simpl. unfold mret, M_ret.
    rewrite !app_nil_r. by destruct w.
  - inversion Hc as [| d' ds s0 new_id s1 rest s2 Hd Hrest]; subst.
    cbn [seed_loop]. run_handler. rewrite Hd.
    rewrite (IH _ _ rest); [| done]. simpl.
    by rewrite <- !app_assoc.
Qed.

Lemma creates_length ss s new_ids s' :
  creates database ss s new_ids s' → length new_ids = length ss.
Proof. induction 1; simpl; congruence. Qed.

Lemma seed_news_run w new_ids s' :
  import_error database = None →
  creates database samples (store w) new_ids s' →
  seed_news database w
  = (Ok (seed_response new_ids),
     mkWorld s' (calls w ++ (CallCreateDocument "newsitem" <$> samples)) (environ w)).
Proof.
  intros Himp Hc. unfold seed_news, try_except, mbind at 1, M_bind at 1.
  unfold import_database. rewrite Himp. unfold mret at 1, M_ret at 1.
  unfold mbind, M_bind. rewrite (seed_loop_run _ _ _ _ _ Hc).
  reflexivity.
Qed.

End HandlerRuns.

(** ** The diagnostic endpoint *)

Section Diagnostics.
Context {S : Type} (database : Database S).

Lemma reported_collections_length b : (length (reported_collections b) ≤ 10)%nat.
Proof. destruct b; simpl; try lia. rewrite length_take. lia. Qed.

Lemma test_database_run w :
  ∃ resp w',
    test_database database w = (Ok (VDict resp), w')
    ∧ resp !! "database"
      = Some (VStr (database_line (behaviour_of database (store w))))
    ∧ resp !! "collections"
      = Some (VList (VStr <$> reported_collections (behaviour_of database (store w))))
    ∧ resp !! "backend" = Some (VStr "✅ Running").
Proof.
  unfold test_database, probe_db, behaviour_of.
  unfold import_database, call_list_collection_names, adapter_call, getenv.
  unfold try_except, mbind, M_bind, mret, M_ret, raise.
  destruct (import_error database) as [e|].
  - destruct (is_ImportError e); cbv beta iota zeta;
      eexists _, _; (split; [reflexivity |]); by simplify_map_eq.
  - destruct (db database) as [d|]; cbv beta iota zeta.
    + destruct (list_collection_names d (store w)) as [[names | e] s'];
        cbv beta iota zeta; eexists _, _; (split; [reflexivity |]);
        by simplify_map_eq.
    + eexists _, _; (split; [reflexivity |]); by simplify_map_eq.
Qed.

End Diagnostics.

(** ** Validation of the request body *)

Section ValidationLemmas.
Context {F : FieldTypes}.

(** A body without one of the titles is rejected. *)
Lemma validate_missing_title body :
  has_field body "title_en" = false ∨ has_field body "title_ar" = false →
  ∃ rejected, NewsCreate_validate body = Raise (RequestValidationError rejected).
Proof.
  intros Hmiss. destruct body as [| b | n | s | l | m]; try by eexists.
  simpl in Hmiss. unfold NewsCreate_validate, required_str.
  destruct (m !! "title_en") as [j1|]; destruct (m !! "title_ar") as [j2|].
  - by destruct Hmiss.
  - destruct (validate_str j1); by eexists.
  - by eexists.
  - by eexists.
Qed.

Context {FL : LawfulFieldTypes}.

Lemma required_str_valid m name :
  is_str (m !! name) = true →
  ∃ a, required_str m name = Some a
       ∧ (scalar_value <$> m !! name) = Some (VStr a).
Proof.
  unfold required_str. destruct (m !! name) as [[]|]; try done.
  intros _. eexists. by rewrite validate_str_string.
Qed.

Lemma optional_str_valid m name :
  is_optional_str (m !! name) = true →
  ∃ c, optional_str m name = Some c
       ∧ default VNone (scalar_value <$> m !! name) = optional_value c.
Proof.
  unfold optional_str. destruct (m !! name) as [[]|]; try done; intros _.
  - by exists None.
  - eexists (Some _). by rewrite validate_str_string.
  - by exists None.
Qed.

Lemma bool_default_false_valid m name :
  is_optional_bool (m !! name) = true →
  ∃ g, bool_default_false m name = Some g
       ∧ default (VBool false) (scalar_value <$> m !! name) = VBool g.
Proof.
  unfold bool_default_false. destruct (m !! name) as [[]|]; try done; intros _.
  - eexists. by rewrite validate_bool_bool.
  - by exists false.
Qed.

Lemma expected_document_lookup m k :
  expected_document m !! k
  = if decide (k ∈ NewsCreate_fields)
    then match m !! k with
         | Some j => Some (scalar_value j)
         | None => NewsCreate_defaults !! k
         end
    else None.
Proof.
  unfold expected_document. rewrite lookup_union, lookup_fmap, map_lookup_filter.
  destruct (decide (k ∈ NewsCreate_fields)) as [Hin | Hout].
  - destruct (m !! k) as [j|]; simpl.
    + rewrite option_guard_True by done. simpl. by destruct (NewsCreate_defaults !! k).
    + by destruct (NewsCreate_defaults !! k).
  - assert (NewsCreate_defaults !! k = None) as ->.
    { unfold NewsCreate_defaults. unfold NewsCreate_fields in Hout.
      rewrite !not_elem_of_cons in Hout.
      destruct Hout as (? & ? & ? & ? & ? & ? & ? & _).
      repeat (rewrite lookup_insert_ne; [| done]).
      by apply lookup_singleton_ne. }
    destruct (m !! k) as [j|]; simpl; [| done].
    by rewrite option_guard_False.
Qed.

Lemma model_dump_lookup item k :
  model_dump item !! k
  = if decide (k = "title_en") then Some (VStr (title_en item))
    else if decide (k = "title_ar") then Some (VStr (title_ar item))
    else if decide (k = "body_en") then Some (optional_value (body_en item))
    else if decide (k = "body_ar") then Some (optional_value (body_ar item))
    else if decide (k = "image_url") then Some (optional_value (image_url item))
    else if decide (k = "tag") then Some (optional_value (tag item))
    else if decide (k = "featured") then Some (VBool (featured item))
    else None.
Proof. unfold model_dump. repeat case_decide; by simplify_map_eq. Qed.

(** A valid payload passes validation, and the validated model dumps to
    the payload restricted to the declared fields, with the defaults. *)
Lemma validate_valid m :
  valid_payload m = true →
  ∃ item, NewsCreate_validate (JObject m) = Ok item
          ∧ model_dump item = expected_document m.
Proof.
  unfold valid_payload. rewrite !andb_true_iff.
  intros [[[[[[H1 H2] H3] H4] H5] H6] H7].
  destruct (required_str_valid _ _ H1) as (a & Ea & Va).
  destruct (required_str_valid _ _ H2) as (b & Eb & Vb).
  destruct (optional_str_valid _ _ H3) as (c & Ec & Vc).
  destruct (optional_str_valid _ _ H4) as (d & Ed & Vd).
  destruct (optional_str_valid _ _ H5) as (e & Ee & Ve).
  destruct (optional_str_valid _ _ H6) as (f & Ef & Vf).
  destruct (bool_default_false_valid _ _ H7) as (g & Eg & Vg).
  exists (mkNewsCreate a b c d e f g). split.
  - unfold NewsCreate_validate. by rewrite Ea, Eb, Ec, Ed, Ee, Ef, Eg.
  - apply map_eq. intros k.
    rewrite model_dump_lookup, expected_document_lookup. simpl.
    destruct (decide (k ∈ NewsCreate_fields)) as [Hin | Hout].
    + unfold NewsCreate_fields in Hin.
      repeat (apply elem_of_cons in Hin as [-> | Hin]);
        [ | | | | | | | by apply elem_of_nil in Hin]; simpl.
      * destruct (m !! "title_en"); simpl in *; congruence.
      * destruct (m !! "title_ar"); simpl in *; congruence.
      * rewrite <- Vc. by destruct (m !! "body_en").
      * rewrite <- Vd. by destruct (m !! "body_ar").
      * rewrite <- Ve. by destruct (m !! "image_url").
      * rewrite <- Vf. by destruct (m !! "tag").
      * rewrite <- Vg. by destruct (m !! "featured").
    + unfold NewsCreate_fields in Hout. rewrite !not_elem_of_cons in Hout.
      destruct Hout as (? & ? & ? & ? & ? & ? & ? & _).
      by repeat (case_decide; [done |]).
Qed.

End ValidationLemmas.

(** ** The in-memory store *)

Section MemStoreLemmas.
Context {R : PyRepr}.
Import MemStore.

Lemma scalar_eqb_eq a b : scalar_eqb a b = true → a = b.
Proof.
  destruct a, b; simpl; try done.
  - by intros ->%bool_decide_eq_true.
  - by intros ->%bool_decide_eq_true.
  - by intros ->%bool_decide_eq_true.
  - destruct o, o0. simpl. by intros ->%bool_decide_eq_true.
Qed.

(** A record that satisfies a filter carries every field of the filter. *)
Lemma matches_sound filter d k v :
  matches filter d = true → filter !! k = Some v → d !! k = Some v.
Proof.
  unfold matches. rewrite forallb_forall. intros Hall Hk.
  specialize (Hall (k, v)). simpl in Hall.
  destruct (d !! k) as [v'|].
  - f_equal. symmetry. apply scalar_eqb_eq, Hall.
    apply list_elem_of_In. by apply elem_of_map_to_list.
  - discriminate Hall. apply list_elem_of_In. by apply elem_of_map_to_list.
Qed.

(** The store answers a query with records that satisfy the filter, at
    most [limit] of them. *)
Lemma mem_get_documents_sound collection filter limit s items s' :
  mem_get_documents collection filter limit s = (Ok items, s') →
  Forall (λ d, ∀ k v, filter !! k = Some v → d !! k = Some v) items
  ∧ (0 ≤ limit → Z.of_nat (length items) ≤ limit) ∧ s' = s.
Proof.
  unfold mem_get_documents. intros [= <- <-]. split; [| split; [| done]].
  - apply Forall_forall. intros d Hd k v Hk.
    apply (subseteq_take (Z.to_nat limit)) in Hd. apply list_elem_of_In in Hd.
    apply filter_In in Hd as [_ Hm]. by eapply matches_sound.
  - intros Hl. rewrite length_take. lia.
Qed.

Lemma matches_featured o d :
  matches {[ "featured" := VBool true ]} (<["_id" := VOid o]> d) = is_featured d.
Proof.
  unfold matches, is_featured. rewrite map_to_list_singleton. simpl.
  rewrite lookup_insert_ne by done.
  destruct (d !! "featured") as [[| [] | | | | |]|]; by simpl.
Qed.

Lemma records_create collection data s :
  records collection (mem_create_document collection data s).2
  = records collection s ++ [<["_id" := VOid (nth_oid (next_oid s))]> data].
Proof.
  unfold mem_create_document, records at 1. simpl. by rewrite lookup_insert_eq.
Qed.

Lemma next_oid_create collection data s :
  next_oid (mem_create_document collection data s).2 = (next_oid s + 1)%N.
Proof. reflexivity. Qed.

(** On this store every insert succeeds. *)
Lemma mem_creates ds s :
  ∃ ids s', creates adapter ds s ids s' ∧ length ids = length ds.
Proof.
  revert s. induction ds as [|d ds IH]; intros s.
  - exists [], s. split; [constructor | done].
  - destruct (IH (mem_create_document "newsitem" d s).2) as (ids & s' & Hc & Hl).
    eexists (_ :: ids), s'. split; [| simpl; by rewrite Hl].
    econstructor; [| exact Hc]. reflexivity.
Qed.

Lemma seed_store_creates s :
  creates adapter samples s (seeded_ids s) (seed_store s).
Proof.
  unfold samples, seeded_ids, seed_store.
  replace (next_oid s + 2)%N with (next_oid s + 1 + 1)%N by lia.
  repeat (econstructor; [reflexivity |]).
  constructor.
Qed.

Lemma seed_store_records s :
  records "newsitem" (seed_store s) = records "newsitem" s ++ seeded s.
Proof.
  unfold seed_store, seeded. cbv zeta.
  rewrite !records_create, !next_oid_create, <- !app_assoc. simpl.
  by replace (next_oid s + 1 + 1)%N with (next_oid s + 2)%N by lia.
Qed.

Lemma seed_store_next_oid s : next_oid (seed_store s) = (next_oid s + 3)%N.
Proof. unfold seed_store. cbv zeta. rewrite !next_oid_create. lia. Qed.

(** Serializing a stored record whose fields hold no identifier object
    swaps [_id] for [id] and changes nothing else. *)
Lemma serialize_stored o (d : doc) :
  d !! "_id" = None → stringify <$> d = d →
  serialize_doc (<["_id" := VOid o]> d) = <["id" := VStr (oid_hex o)]> d.
Proof.
  intros Hid Hplain. rewrite serialize_doc_fmap. unfold rename_id.
  rewrite lookup_insert_eq, delete_insert_id by done.
  by rewrite fmap_insert, Hplain.
Qed.

Lemma samples_plain :
  Forall (λ d, d !! "_id" = None ∧ stringify <$> d = d) samples.
Proof. unfold samples. repeat constructor; by vm_compute. Qed.

End MemStoreLemmas.

(** * The claims *)

(** ** C1: lookup of a record that is not there *)

(** C1, as the code behaves.  [GET /api/news/{id}] never answers 404.  For an
    identifier that names no stored record the handler raises the 404 inside
    its own [try] block, the [except Exception] clause of that block catches
    it, and the client receives status 500 with the text of the 404 as
    detail.  Every failure on this endpoint, the missing record included,
    yields 500. *)
Theorem get_news_item_absent_is_500 :
  (∀ S (database : Database S) (R : PyRepr) news_id w,
     http_status (GET_api_news_id database news_id w).1 ≠ 404)
  ∧ (∀ R : PyRepr,
       (GET_api_news_id MemStore.adapter "65a1b2c3d4e5f60718293a4b"
          (MemStore.world MemStore.empty)).1
       = Raise (HTTPException 500 "404: News item not found")).
Proof.
  split.
  - intros S database R news_id w. unfold GET_api_news_id.
    destruct (get_news_item_status database news_id w) as [-> | ->]; done.
  - intros R. unfold GET_api_news_id.
    by erewrite get_news_item_absent.
Qed.

(** ** C2: the diagnostic endpoint *)

(** C2.  Whatever the store adapter does (module missing, import raising,
    [db] uninitialised, [list_collection_names] raising, or all working),
    [GET /test] returns a response body with status 200; the body's
    [database] field is the descriptive string of that behaviour, and its
    [collections] field lists at most 10 names. *)
Theorem test_database_never_raises {S} (database : Database S) (w : World S) :
  ∃ resp w',
    GET_test database w = (Ok (VDict resp), w')
    ∧ http_status (GET_test database w).1 = 200
    ∧ resp !! "database"
      = Some (VStr (database_line (behaviour_of database (store w))))
    ∧ resp !! "collections"
      = Some (VList (VStr <$> reported_collections (behaviour_of database (store w))))
    ∧ (length (reported_collections (behaviour_of database (store w))) ≤ 10)%nat.
Proof.
  unfold GET_test.
  destruct (test_database_run database w) as (resp & w' & Hrun & Hdb & Hcol & _).
  exists resp, w'. rewrite Hrun. repeat split; try done.
  apply reported_collections_length.
Qed.

(** ** C3: bodies without a title *)

(** C3.  A request body that lacks [title_en] or [title_ar] is rejected by
    validation: [POST /api/news] answers 422 and leaves the world as it was,
    so no [create_document] call is made for that request. *)
Theorem create_rejects_missing_title {F : FieldTypes} {S} (database : Database S)
    (body : json) (w : World S) :
  has_field body "title_en" = false ∨ has_field body "title_ar" = false →
  ∃ rejected,
    POST_api_news database body w = (Raise (RequestValidationError rejected), w)
    ∧ http_status (POST_api_news database body w).1 = 422
    ∧ calls (POST_api_news database body w).2 = calls w.
Proof.
  intros Hmiss. destruct (validate_missing_title body Hmiss) as [rejected Hrej].
  exists rejected. unfold POST_api_news. by rewrite Hrej.
Qed.

(** C3 on a body that has [title_ar] and no [title_en]. *)
Lemma create_rejects_missing_title_witness :
  let body := JObject {[ "title_ar" := JString "x"; "featured" := JBool true ]} in
  let w := MemStore.world MemStore.empty in
  (has_field body "title_en" = false ∨ has_field body "title_ar" = false)
  ∧ ∃ rejected,
      POST_api_news (F := strict_fields) MemStore.adapter body w
      = (Raise (RequestValidationError rejected), w)
      ∧ http_status (POST_api_news (F := strict_fields) MemStore.adapter body w).1 = 422
      ∧ calls (POST_api_news (F := strict_fields) MemStore.adapter body w).2 = calls w.
Proof.
  intros body w. split.
  - left. reflexivity.
  - apply (create_rejects_missing_title (F := strict_fields) MemStore.adapter body w).
    left. reflexivity.
Defined.

(** ** C4: the featured endpoint *)

(** C4.  For every limit, given or omitted, [GET /api/news/featured] is
    [GET /api/news] with [featured=true] and that limit, the omitted limit
    standing for 6: same answer, same adapter calls, same store. *)
Theorem featured_news_is_list_news {S} (database : Database S) {R : PyRepr}
    (limit : option Z) (w : World S) :
  GET_api_news_featured database limit w
  = GET_api_news database (Some (default 6 limit)) (Some true) w.
Proof. by destruct limit. Qed.

(** ** C5: the list endpoint *)

(** C5.  [GET /api/news] makes one [get_documents] call on collection
    [newsitem], with the limit given or 12 when omitted, and with the filter
    [{featured: b}] when [featured=b] is given and the empty filter
    otherwise.  When the adapter answers a [featured=true] filter only with
    records whose [featured] field is true, every record of the response has
    [featured] equal to true. *)
Theorem list_news_query {S} (database : Database S) {R : PyRepr}
    (limit : option Z) (featured : option bool) (w : World S) :
  import_error database = None →
  (∀ l s items s',
     get_documents database "newsitem" {[ "featured" := VBool true ]} l s = (Ok items, s') →
     Forall (λ d, d !! "featured" = Some (VBool true)) items) →
  GET_api_news database None featured w = GET_api_news database (Some 12) featured w
  ∧ calls (GET_api_news database limit featured w).2
    = calls w ++ [CallGetDocuments "newsitem"
                    match featured with
                    | Some b => {[ "featured" := VBool b ]}
                    | None => ∅
                    end
                    (default 12 limit)]
  ∧ ∀ v w', GET_api_news database limit (Some true) w = (Ok v, w') →
            ∃ outs, v = VList (VDict <$> outs)
                    ∧ Forall (λ out, out !! "featured" = Some (VBool true)) outs.
Proof.
  intros Himp Hfilter. split; [done |]. unfold GET_api_news. split.
  - rewrite (list_news_run _ _ _ _ Himp). cbv zeta.
    by destruct (get_documents _ _ _ _ _) as [[items | e] s'].
  - intros v w' Hrun.
    apply list_news_ok in Hrun as (items & s' & Hget & ->).
    exists (serialize_doc <$> items). split.
    + by rewrite <- list_fmap_compose.
    + apply Hfilter in Hget. apply Forall_fmap.
      eapply Forall_impl; [exact Hget |]. intros d Hd. simpl.
      rewrite serialize_doc_field; [by rewrite Hd | done | by left].
Qed.

(** ** C6: creating a record *)

(** C6.  For a valid payload (both titles strings, optional fields strings,
    null or absent, [featured] a boolean or absent), when the import works
    and [create_document] succeeds with identifier [new_id],
    [POST /api/news] returns [{id: new_id, status: "created"}], and the one
    adapter call it makes inserts the payload restricted to the declared
    fields with [featured=false] and [None] filled in for the absent ones. *)
Theorem create_news_inserts_validated {F : FieldTypes} {FL : LawfulFieldTypes}
    {S} (database : Database S) (m : gmap string json) (w : World S)
    (new_id : string) (s' : S) :
  valid_payload m = true →
  import_error database = None →
  create_document database "newsitem" (expected_document m) (store w) = (Ok new_id, s') →
  POST_api_news database (JObject m) w
  = (Ok (VDict {[ "id" := VStr new_id; "status" := VStr "created" ]}),
     mkWorld s' (calls w ++ [CallCreateDocument "newsitem" (expected_document m)])
             (environ w)).
Proof.
  intros Hvalid Himp Hcreate.
  destruct (validate_valid m Hvalid) as (item & Hitem & Hdump).
  unfold POST_api_news. rewrite Hitem, (create_news_run _ _ _ Himp), Hdump.
  cbv zeta. by rewrite Hcreate.
Qed.

(** ** C7: what read endpoints return *)



(** ** C8: seeding *)

(** C8.  When the import works and each of the three [create_document] calls
    succeeds, [POST /api/news/seed] makes exactly those three calls, one per
    sample in order, and returns [inserted = 3] with the three identifiers
    the adapter returned.  A second call makes three further inserts and
    returns their identifiers; nothing of the first call is reused. *)
Theorem seed_news_inserts_three {S} (database : Database S) (w : World S)
    (ids1 ids2 : list string) (s1 s2 : S) :
  import_error database = None →
  creates database samples (store w) ids1 s1 →
  creates database samples s1 ids2 s2 →
  let first := POST_api_news_seed database w in
  let second := POST_api_news_seed database first.2 in
  first.1 = Ok (VDict {[ "inserted" := VInt 3; "ids" := VList (VStr <$> ids1) ]})
  ∧ length ids1 = 3%nat
  ∧ store first.2 = s1
  ∧ calls first.2 = calls w ++ (CallCreateDocument "newsitem" <$> samples)
  ∧ second.1 = Ok (VDict {[ "inserted" := VInt 3; "ids" := VList (VStr <$> ids2) ]})
  ∧ length ids2 = 3%nat
  ∧ store second.2 = s2
  ∧ calls second.2 = calls w ++ (CallCreateDocument "newsitem" <$> samples)
                             ++ (CallCreateDocument "newsitem" <$> samples).
Proof.
  intros Himp H1 H2 first second.
  pose proof (creates_length _ _ _ _ _ H1) as L1.
  pose proof (creates_length _ _ _ _ _ H2) as L2.
  change (length samples) with 3%nat in L1, L2.
  assert (first = (Ok (seed_response ids1),
                   mkWorld s1 (calls w ++ (CallCreateDocument "newsitem" <$> samples))
                           (environ w))) as Hfirst.
  { unfold first, POST_api_news_seed. by apply seed_news_run. }
  assert (second = (Ok (seed_response ids2),
                    mkWorld s2 ((calls w ++ (CallCreateDocument "newsitem" <$> samples))
                                ++ (CallCreateDocument "newsitem" <$> samples))
                            (environ w))) as Hsecond.
  { unfold second, POST_api_news_seed. rewrite Hfirst.
    exact (seed_news_run database (mkWorld s1 _ _) ids2 s2 Himp H2). }
  rewrite Hfirst, Hsecond. unfold seed_response. rewrite L1, L2.
  repeat split; try done. simpl. by rewrite <- app_assoc.
Qed.

(** ** C9: the featured samples *)

(** C9.  Of the three seed records exactly two are featured, the ones titled
    "AIO launches next-gen automation suite" and "ISO 27001 certification
    achieved"; after seeding once into a store that holds no news record,
    [GET /api/news/featured?limit=6] returns exactly those two, each with its
    new identifier under [id]. *)
Theorem seed_then_featured {R : PyRepr} (s : MemStore.Store) :
  MemStore.records "newsitem" s = [] →
  let seeded_world := (POST_api_news_seed MemStore.adapter (MemStore.world s)).2 in
  List.filter is_featured samples = [sample_automation; sample_certification]
  ∧ sample_automation !! "title_en"
    = Some (VStr "AIO launches next-gen automation suite")
  ∧ sample_certification !! "title_en" = Some (VStr "ISO 27001 certification achieved")
  ∧ (GET_api_news_featured MemStore.adapter (Some 6) seeded_world).1
    = Ok (VList
            [ VDict (<["id" := VStr (oid_hex (MemStore.nth_oid (MemStore.next_oid s)))]>
                       sample_automation);
              VDict (<["id" := VStr (oid_hex (MemStore.nth_oid (MemStore.next_oid s + 2)))]>
                       sample_certification) ]).
Proof.
  intros Hempty seeded_world.
  split; [vm_compute; reflexivity |].
  split; [vm_compute; reflexivity |].
  split; [vm_compute; reflexivity |].
  assert (seeded_world
          = mkWorld (seed_store s) ([] ++ (CallCreateDocument "newsitem" <$> samples)) ∅)
    as ->.
  { unfold seeded_world, POST_api_news_seed.
    by rewrite (seed_news_run MemStore.adapter (MemStore.world s) _ _ eq_refl
                  (seed_store_creates s)). }
  unfold GET_api_news_featured, featured_news.
  rewrite (list_news_run MemStore.adapter _ _ _ eq_refl).
  cbv zeta. unfold get_documents, MemStore.adapter, MemStore.mem_get_documents, store.
  rewrite seed_store_records, Hempty, app_nil_l. unfold seeded.
  cbn [List.filter]. rewrite !matches_featured.
  change (is_featured sample_automation) with true.
  change (is_featured sample_partnership) with false.
  change (is_featured sample_certification) with true.
  cbv beta iota. change (Z.to_nat (default 6 (Some 6))) with 6%nat.
  cbn [take fmap list_fmap fst].
  pose proof samples_plain as Hplain. unfold samples in Hplain.
  apply Forall_cons in Hplain as [[Ha1 Ha2] Hplain].
  apply Forall_cons in Hplain as [_ Hplain].
  apply Forall_cons in Hplain as [[Hc1 Hc2] _].
  by rewrite !serialize_stored.
Qed.

(** C9 on the empty store. *)
Lemma seed_then_featured_witness :
  MemStore.records "newsitem" MemStore.empty = []
  ∧ (GET_api_news_featured (R := repr_placeholder) MemStore.adapter (Some 6)
       (POST_api_news_seed MemStore.adapter (MemStore.world MemStore.empty)).2).1
    = Ok (VList
            [ VDict (<["id" := VStr "000000000000000000000000"]> sample_automation);
              VDict (<["id" := VStr "000000000000000000000002"]> sample_certification) ]).
Proof.
  split; [reflexivity |].
  apply (seed_then_featured (R := repr_placeholder) MemStore.empty). reflexivity.
Defined.

(** ** C10: what [serialize_doc] leaves alone *)

(** C10, first wording, refuted.  On a record that has both [_id] and a
    field named [id], the field [id] does not keep its value: the renaming
    of [_id] overwrites it. *)
Lemma serialize_doc_overwrites_id :
  let h : Obj.heap := {[ 1%positive := doc_with_both_ids ]} in
  ∃ l' h' out,
    Obj.serialize_doc (R := repr_placeholder) (Obj.RDict 1%positive) h
    = Some (Obj.RDict l', h')
    ∧ h' !! l' = Some out
    ∧ ¬ keeps_every_other_key (R := repr_placeholder) doc_with_both_ids out.
Proof.
  intros h. eexists _, _, (serialize_copy (R := repr_placeholder) doc_with_both_ids).
  split; [| split].
  - by apply (run_serialize_doc (R := repr_placeholder) 1%positive doc_with_both_ids).
  - apply lookup_insert_eq.
  - intros Hkeep. specialize (Hkeep "id" (VInt 5) ltac:(done) eq_refl).
    vm_compute in Hkeep. discriminate Hkeep.
Qed.

(** C10, amended.  [serialize_doc] never changes an object that exists when
    it is called.  On a non-empty dictionary it returns a new object in which
    [_id] is absent, [id] holds the string form of [_id] when there was one,
    and every other key (including [id] when there was no [_id]) keeps its
    value, an identifier object becoming its string form.  On an empty
    dictionary and on [None] it returns its argument and leaves the heap as
    it is. *)
Theorem serialize_doc_frame {R : PyRepr} (h : Obj.heap) (l : Obj.loc) (d : doc) :
  h !! l = Some d →
  Obj.serialize_doc Obj.RNone h = Some (Obj.RNone, h)
  ∧ (d = ∅ → Obj.serialize_doc (Obj.RDict l) h = Some (Obj.RDict l, h))
  ∧ (d ≠ ∅ →
     ∃ l' out,
       Obj.serialize_doc (Obj.RDict l) h = Some (Obj.RDict l', <[l' := out]> h)
       ∧ h !! l' = None
       ∧ <[l' := out]> h !! l = Some d
       ∧ keeps_other_keys d out
       ∧ (∀ v, d !! "_id" = Some v → out !! "id" = Some (VStr (py_str v)))
       ∧ out !! "_id" = None
       ∧ (∀ k, is_Some (out !! k) → k = "id" ∨ is_Some (d !! k))).
Proof.
  intros Hl. split; [reflexivity |]. split.
  - intros ->. by apply run_serialize_doc_empty.
  - intros Hne. exists (fresh (dom h)), (serialize_copy d).
    assert (h !! fresh (dom h) = None) as Hfresh.
    { apply not_elem_of_dom. apply is_fresh. }
    assert (serialize_copy d = serialize_doc d) as Hcopy.
    { unfold serialize_doc. by rewrite decide_False. }
    split; [by apply run_serialize_doc |]. split; [done |]. split.
    { rewrite lookup_insert_ne; [done |]. intros Heq. congruence. }
    rewrite Hcopy. repeat split.
    + intros k v Hk Hid Hd. rewrite serialize_doc_field; [by rewrite Hd | done | done].
    + apply serialize_doc_id.
    + apply serialize_doc_no__id.
    + apply serialize_doc_keys.
Qed.

(** C10, amended, on the record with both identifiers. *)
Lemma serialize_doc_frame_witness :
  let h : Obj.heap := {[ 1%positive := doc_with_both_ids ]} in
  h !! 1%positive = Some doc_with_both_ids
  ∧ doc_with_both_ids ≠ ∅
  ∧ ∃ l' out,
      Obj.serialize_doc (R := repr_placeholder) (Obj.RDict 1%positive) h
      = Some (Obj.RDict l', <[l' := out]> h)
      ∧ h !! l' = None
      ∧ <[l' := out]> h !! 1%positive = Some doc_with_both_ids
      ∧ keeps_other_keys (R := repr_placeholder) doc_with_both_ids out
      ∧ (∀ v, doc_with_both_ids !! "_id" = Some v
              → out !! "id" = Some (VStr (py_str (R := repr_placeholder) v)))
      ∧ out !! "_id" = None
      ∧ (∀ k, is_Some (out !! k) → k = "id" ∨ is_Some (doc_with_both_ids !! k)).
Proof.
  intros h.
  assert (doc_with_both_ids ≠ ∅) as Hne.
  { intros Heq. by apply (f_equal (λ m : doc, m !! "id")) in Heq. }
  split; [reflexivity |]. split; [exact Hne |].
  exact (proj2 (proj2 (serialize_doc_frame (R := repr_placeholder) h 1%positive
                         doc_with_both_ids eq_refl)) Hne).
Defined.

(** ** The claims at concrete inputs *)

Lemma strict_fields_lawful : LawfulFieldTypes (F := strict_fields).
Proof. by split. Qed.

(** C5 on the in-memory store after one seeding. *)
Lemma list_news_query_witness :
  let w := MemStore.world (seed_store MemStore.empty) in
  import_error MemStore.adapter = None
  ∧ calls (GET_api_news (R := repr_placeholder) MemStore.adapter None (Some true) w).2
    = [CallGetDocuments "newsitem" {[ "featured" := VBool true ]} 12]
  ∧ ∀ v w', GET_api_news (R := repr_placeholder) MemStore.adapter None (Some true) w
            = (Ok v, w') →
            ∃ outs, v = VList (VDict <$> outs)
                    ∧ Forall (λ out, out !! "featured" = Some (VBool true)) outs.
Proof.
  intros w. split; [reflexivity |].
  refine (proj2 (list_news_query (R := repr_placeholder) MemStore.adapter None (Some true)
                   w eq_refl _)).
  intros l s items s' Hget.
  apply (mem_get_documents_sound "newsitem" _ l s items s') in Hget as [Hall _].
  eapply Forall_impl; [exact Hall |]. intros d Hd. apply Hd, lookup_singleton_eq.
Defined.

(** C6 on a payload with a null field and an unknown field. *)
Lemma create_news_inserts_validated_witness :
  let m : gmap string json :=
    {[ "title_en" := JString "Hello"; "title_ar" := JString "مرحبا";
       "tag" := JNull; "views" := JNumber "7" ]} in
  let w := MemStore.world MemStore.empty in
  let created := MemStore.mem_create_document "newsitem" (expected_document m) (store w) in
  valid_payload m = true
  ∧ created.1 = Ok "000000000000000000000000"
  ∧ (POST_api_news (F := strict_fields) MemStore.adapter (JObject m) w).1
    = Ok (VDict {[ "id" := VStr "000000000000000000000000"; "status" := VStr "created" ]})
  ∧ calls (POST_api_news (F := strict_fields) MemStore.adapter (JObject m) w).2
    = [CallCreateDocument "newsitem" (expected_document m)].
Proof.
  intros m w created.
  assert (valid_payload m = true) as Hvalid by (vm_compute; reflexivity).
  split; [exact Hvalid |]. split; [reflexivity |].
  rewrite (create_news_inserts_validated (F := strict_fields) (FL := strict_fields_lawful)
             MemStore.adapter m w "000000000000000000000000" created.2
             Hvalid eq_refl eq_refl).
  split; reflexivity.
Defined.


(** C8 on the empty store: two seedings, six records. *)
Lemma seed_news_inserts_three_witness :
  let w := MemStore.world MemStore.empty in
  let first := POST_api_news_seed MemStore.adapter w in
  let second := POST_api_news_seed MemStore.adapter first.2 in
  import_error MemStore.adapter = None
  ∧ first.1
    = Ok (VDict {[ "inserted" := VInt 3;
                   "ids" := VList [ VStr "000000000000000000000000";
                                    VStr "000000000000000000000001";
                                    VStr "000000000000000000000002" ] ]})
  ∧ second.1
    = Ok (VDict {[ "inserted" := VInt 3;
                   "ids" := VList [ VStr "000000000000000000000003";
                                    VStr "000000000000000000000004";
                                    VStr "000000000000000000000005" ] ]})
  ∧ length (MemStore.records "newsitem" (store second.2)) = 6%nat.
Proof.
  intros w first second.
  pose proof (seed_news_inserts_three MemStore.adapter w
                (seeded_ids MemStore.empty) (seeded_ids (seed_store MemStore.empty))
                (seed_store MemStore.empty) (seed_store (seed_store MemStore.empty))
                eq_refl (seed_store_creates _) (seed_store_creates _))
    as (H1 & _ & _ & _ & H2 & _ & Hs & _).
  split; [reflexivity |]. split; [exact H1 |]. split; [exact H2 |].
  fold first second in Hs. rewrite Hs. rewrite !seed_store_records. reflexivity.
Defined.

(** ** Further observations *)

(** [serialize_doc] looks at the values of the dictionary it is given and
    not inside them: an identifier object held in a list or in a
    sub-document stays an identifier object. *)
Example serialize_doc_inner_values :
  let o := mkObjectId "65a1b2c3d4e5f60718293a4b" in
  let d : doc := {[ "_id" := VOid o; "related" := VList [VOid o];
                    "author" := VDict {[ "ref" := VOid o ]} ]} in
  serialize_doc (R := repr_placeholder) d
  = {[ "id" := VStr "65a1b2c3d4e5f60718293a4b"; "related" := VList [VOid o];
       "author" := VDict {[ "ref" := VOid o ]} ]}.
Proof. vm_compute. reflexivity. Qed.

(** A malformed identifier never reaches the store: [ObjectId] rejects it
    and the endpoint answers 500. *)
Example get_news_item_malformed :
  GET_api_news_id (R := repr_quoted) MemStore.adapter "seed"
    (MemStore.world MemStore.empty)
  = (Raise (HTTPException 500
       "'seed' is not a valid ObjectId, it must be a 12-byte input or a 24-character hex string"),
     MemStore.world MemStore.empty).
Proof. reflexivity. Qed.

(** A string of 24 characters of which some are whitespace is a valid
    argument of [ObjectId]: the identifier then has fewer than twelve
    bytes. *)
Example ObjectId_new_whitespace :
  ObjectId_new (R := repr_quoted) "65a1b2c3d4e5f60718293a  "
  = Ok (mkObjectId "65a1b2c3d4e5f60718293a").
Proof. reflexivity. Qed.

(** The in-memory store hands out six different identifiers over two
    seedings. *)
Example seed_twice_identifiers :
  NoDup (seeded_ids MemStore.empty ++ seeded_ids (seed_store MemStore.empty)).
Proof. apply (bool_decide_unpack _). vm_compute. exact I. Qed.

(** * Further properties of the code *)

(** ** [serialize_doc]: fixed points, keys, iteration order *)

Section SerializeMore.
Context {R : PyRepr}.

Lemma serialize_doc_plain (d : doc) :
  d !! "_id" = None → (∀ k o, d !! k ≠ Some (VOid o)) → serialize_doc d = d.
Proof.
  intros Hid Hplain. rewrite serialize_doc_fmap. unfold rename_id. rewrite Hid.
  apply map_eq. intros k. rewrite lookup_fmap.
  destruct (d !! k) as [v|] eqn:Hk; [| done]. simpl. f_equal.
  apply stringify_other. destruct v; try done. by destruct (Hplain k o).
Qed.

(** X1.  Serializing a serialized document changes nothing. *)
Theorem serialize_doc_idempotent (d : doc) :
  serialize_doc (serialize_doc d) = serialize_doc d.
Proof.
  apply serialize_doc_plain.
  - apply serialize_doc_no__id.
  - apply serialize_doc_no_oid.
Qed.

(** X2.  [serialize_doc] returns the contents it was given exactly when there is
    nothing to do: no [_id] key and no identifier object among the values. *)
Theorem serialize_doc_unchanged_iff (d : doc) :
  serialize_doc d = d ↔ d !! "_id" = None ∧ ∀ k o, d !! k ≠ Some (VOid o).
Proof.
  split.
  - intros Heq. split.
    + rewrite <- Heq. apply serialize_doc_no__id.
    + intros k o. rewrite <- Heq. apply serialize_doc_no_oid.
  - intros [Hid Hplain]. by apply serialize_doc_plain.
Qed.

(** X3.  The keys of the result: those of the input, with [_id] swapped for [id]
    when [_id] is there.  The result never has more keys than the input, and
    has one fewer when the input has both [_id] and [id]. *)
Theorem serialize_doc_keys_exact (d : doc) :
  dom (serialize_doc d)
  = (if decide (is_Some (d !! "_id"))
     then {[ "id" ]} ∪ dom d ∖ {[ "_id" ]}
     else dom d)
  ∧ (size (serialize_doc d) ≤ size d)%nat
  ∧ (is_Some (d !! "_id") → is_Some (d !! "id") →
     S (size (serialize_doc d)) = size d).
Proof.
  rewrite serialize_doc_fmap, dom_fmap_L, map_size_fmap. unfold rename_id.
  destruct (d !! "_id") as [v|] eqn:Hid.
  - rewrite decide_True by by eexists.
    rewrite dom_insert_L, dom_delete_L, map_size_insert, lookup_delete_ne by done.
    rewrite map_size_delete, Hid.
    assert (size d ≠ 0)%nat as Hpos.
    { intros Hz. apply map_size_empty_inv in Hz. subst d. by rewrite lookup_empty in Hid. }
    split; [done |]. split.
    + destruct (d !! "id"); simpl; lia.
    + intros _ [x Hx]. rewrite Hx. simpl. lia.
  - rewrite decide_False by (by intros [? ?]).
    split; [done |]. split; [lia |]. by intros [? ?].
Qed.

(** X4.  The loop may visit the items in any order: every arrangement of the
    snapshot gives the result of the arrangement the dictionary yields. *)
Theorem stringify_items_any_order (items : list (string * value)) (d : doc) :
  items ≡ₚ map_to_list d →
  stringify_items items d = stringify_items (map_to_list d) d.
Proof.
  intros Hperm. rewrite stringify_items_fmap.
  apply map_eq. intros k. rewrite lookup_fmap.
  assert (NoDup items.*1) as Hnd.
  { rewrite Hperm. apply NoDup_fst_map_to_list. }
  destruct (d !! k) as [v|] eqn:Hk; simpl.
  - apply stringify_items_member; [done | | done].
    rewrite Hperm. by apply elem_of_map_to_list.
  - rewrite stringify_items_other; [done |].
    intros [[k' v'] [Heq Hin]]%list_elem_of_fmap. simpl in Heq. subst k'.
    rewrite Hperm in Hin. apply elem_of_map_to_list in Hin. congruence.
Qed.

Lemma serialize_copy_nonempty (d : doc) : d ≠ ∅ → serialize_copy d ≠ ∅.
Proof.
  intros Hne Hempty. rewrite serialize_copy_fmap in Hempty.
  apply fmap_empty_inv in Hempty. unfold rename_id in Hempty.
  destruct (d !! "_id") as [v|]; [| done].
  by apply insert_non_empty in Hempty.
Qed.

(** X5.  Serializing the object that [serialize_doc] returned allocates again:
    the caller's dictionary, the first result and the second result are
    three different objects, the first unchanged and the other two with the
    same contents. *)
Theorem serialize_doc_twice (h : Obj.heap) (l : Obj.loc) (d : doc) :
  h !! l = Some d → d ≠ ∅ →
  ∃ l1 l2 out h2,
    (Obj.serialize_doc (Obj.RDict l) ≫= Obj.serialize_doc) h = Some (Obj.RDict l2, h2)
    ∧ l1 ≠ l ∧ l2 ≠ l ∧ l2 ≠ l1
    ∧ h2 !! l = Some d ∧ h2 !! l1 = Some out ∧ h2 !! l2 = Some out
    ∧ out = serialize_doc d.
Proof.
  intros Hl Hne.
  set (l1 := fresh (dom h)).
  set (h1 := <[l1 := serialize_copy d]> h).
  set (l2 := fresh (dom h1)).
  assert (h !! l1 = None) as Hf1 by apply not_elem_of_dom, is_fresh.
  assert (h1 !! l2 = None) as Hf2 by apply not_elem_of_dom, is_fresh.
  assert (h1 !! l1 = Some (serialize_copy d)) as H1 by apply lookup_insert_eq.
  assert (l1 ≠ l) as Hne1 by (intros ->; congruence).
  assert (l2 ≠ l1) as Hne21 by (intros Heq; rewrite Heq in Hf2; congruence).
  assert (h1 !! l = Some d) as H1l by (unfold h1; by rewrite lookup_insert_ne).
  assert (l2 ≠ l) as Hne2 by (intros Heq; rewrite Heq in Hf2; congruence).
  assert (serialize_copy d = serialize_doc d) as Hcopy.
  { unfold serialize_doc. by rewrite decide_False. }
  assert (serialize_copy (serialize_copy d) = serialize_copy d) as Hidem.
  { pose proof (serialize_doc_idempotent d) as Hi. rewrite <- Hcopy in Hi.
    unfold serialize_doc in Hi at 1.
    by rewrite decide_False in Hi by by apply serialize_copy_nonempty. }
  exists l1, l2, (serialize_copy d), (<[l2 := serialize_copy d]> h1).
  split.
  - rewrite (run_bind _ _ _ _ _ (run_serialize_doc l d h Hl Hne)).
    fold l1 h1.
    rewrite (run_serialize_doc l1 (serialize_copy d) h1 H1
               (serialize_copy_nonempty d Hne)).
    fold l2. by rewrite Hidem.
  - repeat split; try done.
    + by rewrite lookup_insert_ne.
    + by rewrite lookup_insert_ne.
    + apply lookup_insert_eq.
Qed.

End SerializeMore.

(** ** The diagnostic endpoint: environment, connection status, calls *)

Ltac run_handlers :=
  unfold import_database, call_get_documents, call_create_document, call_find_one,
    call_list_collection_names, adapter_call, getenv;
  unfold try_except, mbind, M_bind, mret, M_ret, raise, lift_result.

Ltac run_test_database database w :=
  unfold GET_test, test_database, probe_db; run_handlers;
  destruct (import_error database) as [e|];
    [ destruct (is_ImportError e)
    | destruct (db database) as [d|];
      [ destruct (list_collection_names d (store w)) as [[names | e] s'] | ] ];
  cbv beta iota zeta.

Section DiagnosticsMore.
Context {S : Type} (database : Database S).

(** X6.  The fields [database_url] and [database_name] of the diagnostic report
    say only whether the environment variables [DATABASE_URL] and
    [DATABASE_NAME] are set to a non-empty string: what the [try] block wrote
    there ("Configured", the name of [db]) is always overwritten.  The
    environment itself is left as it was. *)
Theorem test_database_env_report (w : World S) :
  ∃ resp w',
    GET_test database w = (Ok (VDict resp), w')
    ∧ resp !! "database_url"
      = Some (VStr (if env_truthy (environ w !! "DATABASE_URL")
                    then "✅ Set" else "❌ Not Set"))
    ∧ resp !! "database_name"
      = Some (VStr (if env_truthy (environ w !! "DATABASE_NAME")
                    then "✅ Set" else "❌ Not Set"))
    ∧ env_truthy (Some EmptyString) = false
    ∧ environ w' = environ w.
Proof.
  run_test_database database w; cbn [environ];
    eexists _, _; (split; [reflexivity |]); unfold env_report;
    (split; [rewrite lookup_insert_ne by done; rewrite lookup_insert_eq;
             by destruct (env_truthy _) |]);
    (split; [rewrite lookup_insert_eq; by destruct (env_truthy _) |]);
    done.
Qed.

(** X7.  The report always has the same six keys, and its [connection_status] is
    "Connected" exactly when the module was imported and [db] is not [None],
    whether or not the listing of the collections then worked. *)
Theorem test_database_connection_status (w : World S) :
  ∃ resp w',
    GET_test database w = (Ok (VDict resp), w')
    ∧ dom resp = {[ "backend"; "database"; "database_url"; "database_name";
                    "connection_status"; "collections" ]}
    ∧ resp !! "connection_status"
      = Some (VStr match import_error database, db database with
                   | None, Some _ => "Connected"
                   | _, _ => "Not Connected"
                   end).
Proof.
  run_test_database database w;
    eexists _, _; (split; [reflexivity |]);
    (split; [| by simplify_map_eq]);
    unfold initial_response; rewrite !dom_insert_L, dom_singleton_L; set_solver.
Qed.

(** X8.  The diagnostic endpoint reaches the adapter at most once, to list the
    collections, and only when the module was imported and [db] is not
    [None]; the store is then in the state that call left, and otherwise
    untouched. *)
Theorem test_database_calls (w : World S) :
  calls (GET_test database w).2
  = calls w ++ match import_error database, db database with
               | None, Some _ => [CallListCollectionNames]
               | _, _ => []
               end
  ∧ store (GET_test database w).2
    = match import_error database, db database with
      | None, Some d => (list_collection_names d (store w)).2
      | _, _ => store w
      end.
Proof.
  run_test_database database w; simpl; rewrite ?app_nil_r; done.
Qed.

End DiagnosticsMore.

(** ** Truncation of error texts *)

Lemma append_cons c a r : String c a +:+ r = String c (a +:+ r).
Proof. reflexivity. Qed.

(** [str_prefix n s] is a cut of [s] between two characters, after [n]
    characters or at the end of [s] if that comes first. *)
Lemma str_prefix_cut n s :
  ∃ rest, s = str_prefix n s +:+ rest
          ∧ str_len (str_prefix n s) = Nat.min n (str_len s)
          ∧ at_char_boundary rest.
Proof.
  revert n. induction s as [|c s IH]; intros n.
  - exists EmptyString. simpl. by rewrite Nat.min_0_r.
  - simpl. destruct (is_continuation c) eqn:Hc.
    + destruct (IH n) as (rest & Hrest & Hlen & Hb). exists rest.
      rewrite append_cons, <- Hrest. simpl. by rewrite Hc.
    + destruct n as [|n].
      * exists (String c s). simpl. by rewrite Hc.
      * destruct (IH n) as (rest & Hrest & Hlen & Hb). exists rest.
        rewrite append_cons, <- Hrest. simpl. rewrite Hc, Hlen. done.
Qed.

(** Such a cut is the only one: two cuts of a text between characters, after
    the same number of characters, are the same cut. *)
Lemma char_cut_unique a : ∀ b ra rb,
  a +:+ ra = b +:+ rb → str_len a = str_len b →
  at_char_boundary ra → at_char_boundary rb → a = b.
Proof.
  induction a as [|c a IH]; intros b ra rb Heq Hlen Ha Hb.
  - destruct b as [|c b]; [done |]. exfalso.
    change (ra = String c (b +:+ rb)) in Heq. subst ra. simpl in Ha, Hlen.
    rewrite Ha in Hlen. discriminate Hlen.
  - destruct b as [|c' b].
    + exfalso. change (String c (a +:+ ra) = rb) in Heq. subst rb.
      simpl in Hb, Hlen. rewrite Hb in Hlen. discriminate Hlen.
    + rewrite !append_cons in Heq. injection Heq as <- Heq.
      f_equal. apply (IH b ra rb Heq); [| done | done].
      simpl in Hlen. destruct (is_continuation c); congruence.
Qed.

(** X9.  When importing the module raises something other than [ImportError], or
    the listing of the collections raises, the report's [database] line is
    the label of that case followed by the first 50 characters of the
    exception's text: the text cut between two characters after 50
    characters, or whole if it has fewer, and no other cut of the text is
    that. *)
Theorem test_database_error_text {S} (database : Database S) (w : World S) (e : exn) :
  (import_error database = Some e ∧ is_ImportError e = false)
  ∨ (import_error database = None
     ∧ ∃ d s', db database = Some d
               ∧ list_collection_names d (store w) = (Raise e, s')) →
  ∃ resp w' shown rest,
    GET_test database w = (Ok (VDict resp), w')
    ∧ resp !! "database"
      = Some (VStr (match import_error database with
                    | Some _ => "❌ Error: "
                    | None => "⚠️  Connected but Error: "
                    end +:+ shown))
    ∧ exn_str e = shown +:+ rest
    ∧ str_len shown = Nat.min 50 (str_len (exn_str e))
    ∧ at_char_boundary rest
    ∧ (∀ shown' rest',
         exn_str e = shown' +:+ rest' →
         str_len shown' = Nat.min 50 (str_len (exn_str e)) →
         at_char_boundary rest' →
         shown' = shown).
Proof.
  destruct (str_prefix_cut 50 (exn_str e)) as (rest & Hrest & Hlen & Hb).
  assert (∀ shown' rest',
            exn_str e = shown' +:+ rest' →
            str_len shown' = Nat.min 50 (str_len (exn_str e)) →
            at_char_boundary rest' →
            shown' = str_prefix 50 (exn_str e)) as Hunique.
  { intros shown' rest' Hcut Hlen' Hb'.
    apply (char_cut_unique shown' (str_prefix 50 (exn_str e)) rest' rest);
      [congruence | congruence | done | done]. }
  intros [[Himp Hnot] | (Himp & d & s' & Hdb & Hlist)];
    unfold GET_test, test_database, probe_db; run_handlers.
  - rewrite Himp, Hnot. cbv beta iota zeta.
    eexists _, _, (str_prefix 50 (exn_str e)), rest.
    split; [reflexivity |]. split; [by simplify_map_eq |]. done.
  - rewrite Himp, Hdb, Hlist. cbv beta iota zeta.
    eexists _, _, (str_prefix 50 (exn_str e)), rest.
    split; [reflexivity |]. split; [by simplify_map_eq |]. done.
Qed.

(** ** The store-backed handlers: how failures surface *)

Section HandlerFailures.
Context {S : Type} (database : Database S) {R : PyRepr}.

Lemma try_except_500 (body : M S value) (w : World S) :
  ok_or_500 (try_except body (λ e, raise (HTTPException 500 (exn_str e))) w).1.
Proof.
  unfold try_except, raise. destruct (body w) as [[v | e] w']; simpl.
  - left. by eexists.
  - right. by eexists.
Qed.

(** X10.  The five handlers that use the store either return a value or raise an
    [HTTPException] with status 500: no exception of the adapter, of
    [ObjectId] or of the import escapes them, and none of them answers with
    another status. *)
Theorem store_handlers_ok_or_500 (w : World S) :
  (∀ limit featured, ok_or_500 (list_news database limit featured w).1)
  ∧ (∀ limit, ok_or_500 (featured_news database limit w).1)
  ∧ (∀ news_id, ok_or_500 (get_news_item database news_id w).1)
  ∧ (∀ item, ok_or_500 (create_news database item w).1)
  ∧ ok_or_500 (seed_news database w).1.
Proof.
  repeat split; intros; apply try_except_500.
Qed.

(** X11.  When the import of the adapter module raises [e], each of the five
    handlers answers 500 with the text of [e] and leaves the world as it
    was: no adapter call is made. *)
Theorem import_failure_is_500 (w : World S) (e : exn) :
  import_error database = Some e →
  let failed := (Raise (HTTPException 500 (exn_str e)), w) in
  (∀ limit featured, list_news database limit featured w = failed)
  ∧ (∀ limit, featured_news database limit w = failed)
  ∧ (∀ news_id, get_news_item database news_id w = failed)
  ∧ (∀ item, create_news database item w = failed)
  ∧ seed_news database w = failed.
Proof.
  intros Himp failed.
  repeat split; intros;
    unfold featured_news, list_news, get_news_item, create_news, seed_news;
    run_handlers; by rewrite Himp.
Qed.

(** X12.  A lookup whose identifier [ObjectId] rejects, or that finds [db]
    uninitialised, answers 500 without reaching the store: the world is
    unchanged. *)
Theorem get_news_item_no_store_access (news_id : string) (w : World S) :
  db database = None ∨ (∃ e, ObjectId_new news_id = Raise e) →
  (get_news_item database news_id w).2 = w
  ∧ http_status (get_news_item database news_id w).1 = 500.
Proof.
  intros Hcase. unfold get_news_item. run_handlers.
  destruct (import_error database) as [e0|]; [done |].
  destruct Hcase as [Hdb | [e He]].
  - by rewrite Hdb.
  - destruct (db database) as [d|]; [| done]. by rewrite He.
Qed.

Lemma hex_digit_facts c :
  is_hex_digit c = true →
  is_ascii_space c = false ∧ is_continuation c = false
  ∧ ∃ v, hex_value c = Some v ∧ (v < 16)%N ∧ hex_char v = lower_ascii c.
Proof.
  destruct c as [[] [] [] [] [] [] [] []]; intros Hc; try discriminate Hc;
    (split; [reflexivity |]); (split; [reflexivity |]);
    eexists; (split; [reflexivity |]); (split; reflexivity).
Qed.

Lemma hexlify_pair top bot bytes :
  (top < 16)%N → (bot < 16)%N →
  hexlify ((16 * top + bot)%N :: bytes)
  = String (hex_char top) (String (hex_char bot) (hexlify bytes)).
Proof.
  intros Ht Hb. simpl.
  replace ((16 * top + bot) / 16)%N with top
    by (apply (N.div_unique _ 16 top bot); lia).
  replace ((16 * top + bot) mod 16)%N with bot
    by (apply (N.mod_unique _ 16 top bot); lia).
  done.
Qed.

(** On an even number of hexadecimal digits [fromhex] succeeds, and
    printing the bytes gives the digits back in lower case. *)
Lemma fromhex_digits k s :
  String.length s = (2 * k)%nat → str_forallb is_hex_digit s = true →
  str_len s = String.length s
  ∧ ∃ bytes, fromhex s = Some bytes ∧ hexlify bytes = str_map lower_ascii s.
Proof.
  revert s. induction k as [|k IH]; intros s Hlen Hhex.
  - destruct s; [| done]. split; [done |]. by exists [].
  - destruct s as [|c [|c' s]]; [done | simpl in Hlen; lia |].
    simpl in Hhex. apply andb_true_iff in Hhex as [Hc Hhex].
    apply andb_true_iff in Hhex as [Hc' Hhex].
    destruct (hex_digit_facts c Hc) as (Hsp & Hco & v & Hv & Hlt & Hch).
    destruct (hex_digit_facts c' Hc') as (Hsp' & Hco' & v' & Hv' & Hlt' & Hch').
    destruct (IH s) as (Hl & bytes & Hbytes & Hprint); [simpl in Hlen; lia | done |].
    split.
    + simpl. rewrite Hco, Hco'. by rewrite Hl.
    + exists ((16 * v + v')%N :: bytes). split.
      * cbn [fromhex]. rewrite Hsp, Hv, Hv', Hbytes. done.
      * rewrite hexlify_pair by done. simpl. by rewrite Hch, Hch', Hprint.
Qed.

(** X13.  The identifier in the answer of a successful lookup is the string form
    of the record's [_id]; when the store returned the record that was asked
    for, that is the string form of the identifier built from the request,
    and for a request made of hexadecimal digits only it is the request in
    lower case. *)
Theorem get_news_item_id_lowercase (news_id : string) (w : World S)
    (d : Db S) (oid : ObjectId) (item : doc) (s' : S) :
  import_error database = None →
  db database = Some d →
  ObjectId_new news_id = Ok oid →
  newsitem_find_one d {[ "_id" := VOid oid ]} (store w) = (Ok (Some item), s') →
  item !! "_id" = Some (VOid oid) →
  ∃ out,
    (get_news_item database news_id w).1 = Ok (VDict out)
    ∧ out !! "id" = Some (VStr (oid_hex oid))
    ∧ (str_forallb is_hex_digit news_id = true →
       oid_hex oid = str_map lower_ascii news_id).
Proof.
  intros Himp Hdb Hoid Hfind Hid.
  assert (item_is_falsy (Some item) = false) as Htruthy.
  { simpl. apply bool_decide_eq_false. intros ->. by rewrite lookup_empty in Hid. }
  rewrite (get_news_item_found database news_id w d oid (Some item) s'
             Himp Hdb Hoid Hfind Htruthy).
  exists (serialize_doc item). split; [done |].
  split; [by rewrite (serialize_doc_id item _ Hid) |].
  intros Hhex. unfold ObjectId_new in Hoid.
  destruct (str_len news_id =? 24)%nat eqn:Hlen; [| done].
  apply Nat.eqb_eq in Hlen.
  assert (String.length news_id = (2 * 12)%nat) as Hbytes.
  { clear Hoid. revert Hlen.
    assert (str_len news_id = String.length news_id) as ->; [| done].
    clear -Hhex. induction news_id as [|c s IH]; [done |].
    simpl in *. apply andb_true_iff in Hhex as [Hc Hs].
    destruct (hex_digit_facts c Hc) as (_ & -> & _). by rewrite IH. }
  destruct (fromhex_digits 12 news_id Hbytes Hhex) as (_ & bytes & Hfrom & Hprint).
  rewrite Hfrom in Hoid. by injection Hoid as <-.
Qed.

(** X14.  With the module imported, [db] initialised and a well-formed
    identifier, the lookup makes one [find_one] call; when that returns
    [None] or an empty dictionary the answer is 500 with the detail
    "404: News item not found", and when it raises [e] the answer is 500
    with the text of [e]. *)
Theorem get_news_item_not_served (news_id : string) (w : World S)
    (d : Db S) (oid : ObjectId) :
  import_error database = None →
  db database = Some d →
  ObjectId_new news_id = Ok oid →
  let after s' :=
    mkWorld s' (calls w ++ [CallFindOne {[ "_id" := VOid oid ]}]) (environ w) in
  (∀ item s',
     newsitem_find_one d {[ "_id" := VOid oid ]} (store w) = (Ok item, s') →
     item = None ∨ item = Some ∅ →
     get_news_item database news_id w
     = (Raise (HTTPException 500 "404: News item not found"), after s'))
  ∧ (∀ e s',
       newsitem_find_one d {[ "_id" := VOid oid ]} (store w) = (Raise e, s') →
       get_news_item database news_id w
       = (Raise (HTTPException 500 (exn_str e)), after s')).
Proof.
  intros Himp Hdb Hoid after. split.
  - intros item s' Hfind Hitem.
    apply (get_news_item_absent database news_id w d oid item s'); try done.
    by destruct Hitem as [-> | ->].
  - intros e s' Hfind. unfold get_news_item. run_handlers.
    by rewrite Himp, Hdb, Hoid, Hfind.
Qed.

Lemma seed_loop_fails done d rest ids w new_ids s1 e s2 :
  creates database done (store w) new_ids s1 →
  create_document database "newsitem" d s1 = (Raise e, s2) →
  seed_loop database (done ++ d :: rest) ids w
  = (Raise e,
     mkWorld s2 (calls w ++ (CallCreateDocument "newsitem" <$> done ++ [d])) (environ w)).
Proof.
  revert ids w new_ids. induction done as [|x done IH]; intros ids w new_ids Hc Hfail.
  - inversion Hc; subst. simpl. run_handlers. by rewrite Hfail.
  - inversion Hc as [| x' ds s0 new_id sx tail sy Hx Htail]; subst.
    simpl. run_handlers. rewrite Hx.
    pose proof (IH (ids ++ [new_id])
                  (mkWorld sx (calls w ++ [CallCreateDocument "newsitem" x]) (environ w))
                  tail Htail Hfail) as Hrest.
    simpl in Hrest. rewrite Hrest. simpl. by rewrite <- app_assoc.
Qed.

(** X15.  Seeding is not atomic: when the inserts of the first samples succeed
    and the next one raises [e], the answer is 500 with the text of [e], no
    further insert is attempted, and the store stays as the succeeded
    inserts and the failed call left it. *)
Theorem seed_news_partial_failure (w : World S) (done rest : list doc) (d : doc)
    (ids : list string) (s1 s2 : S) (e : exn) :
  import_error database = None →
  samples = done ++ d :: rest →
  creates database done (store w) ids s1 →
  create_document database "newsitem" d s1 = (Raise e, s2) →
  seed_news database w
  = (Raise (HTTPException 500 (exn_str e)),
     mkWorld s2 (calls w ++ (CallCreateDocument "newsitem" <$> done ++ [d])) (environ w)).
Proof.
  intros Himp Hsplit Hc Hfail.
  unfold seed_news, try_except, mbind at 1, M_bind at 1.
  unfold import_database. rewrite Himp. unfold mret at 1, M_ret at 1.
  unfold mbind, M_bind. rewrite Hsplit.
  by rewrite (seed_loop_fails done d rest [] w ids s1 e s2 Hc Hfail).
Qed.

End HandlerFailures.

(** ** The [NewsCreate] model: what reaches the store *)

Section NewsCreateMore.
Context {F : FieldTypes}.

(** X16.  The document that [create_news] hands to the store has exactly the
    seven declared keys, so it carries neither [_id] nor [id], and no value
    in it is an identifier object: serializing it changes nothing. *)
Theorem model_dump_shape {R : PyRepr} (item : NewsCreate) :
  dom (model_dump item) = list_to_set NewsCreate_fields
  ∧ model_dump item !! "_id" = None
  ∧ model_dump item !! "id" = None
  ∧ serialize_doc (model_dump item) = model_dump item.
Proof.
  assert (model_dump item !! "_id" = None) as Hid by by rewrite model_dump_lookup.
  split; [| split; [done | split; [by rewrite model_dump_lookup |]]].
  - unfold model_dump, NewsCreate_fields.
    rewrite !dom_insert_L, dom_singleton_L. simpl. set_solver.
  - apply serialize_doc_plain; [done |].
    intros k o. rewrite model_dump_lookup.
    repeat (case_decide; [by destruct item as [? ? [] [] [] [] ?] |]). done.
Qed.

(** X17.  Validation reads only the seven declared fields: two request bodies
    that agree on them are validated alike, so keys that name no field have
    no effect on what [POST /api/news] does. *)
Theorem unknown_fields_ignored {S} (database : Database S)
    (m1 m2 : gmap string json) (w : World S) :
  (∀ name, name ∈ NewsCreate_fields → m1 !! name = m2 !! name) →
  NewsCreate_validate (JObject m1) = NewsCreate_validate (JObject m2)
  ∧ POST_api_news database (JObject m1) w = POST_api_news database (JObject m2) w.
Proof.
  intros Hagree.
  assert (NewsCreate_validate (JObject m1) = NewsCreate_validate (JObject m2)) as Hv.
  { unfold NewsCreate_validate, required_str, optional_str, bool_default_false.
    unfold NewsCreate_fields in Hagree.
    rewrite !(Hagree "title_en"), !(Hagree "title_ar"), !(Hagree "body_en"),
      !(Hagree "body_ar"), !(Hagree "image_url"), !(Hagree "tag"),
      !(Hagree "featured") by (rewrite !elem_of_cons; tauto).
    done. }
  split; [done |]. unfold POST_api_news. by rewrite Hv.
Qed.

(** X18.  Validation undoes the JSON rendering of a model: a body that carries
    the fields of [item] validates to [item]. *)
Theorem validate_json_round_trip {FL : LawfulFieldTypes} (item : NewsCreate) :
  NewsCreate_validate (JObject (NewsCreate_json item)) = Ok item.
Proof.
  unfold NewsCreate_validate, required_str, optional_str, bool_default_false,
    NewsCreate_json.
  destruct item as [a b c d e f g]. simpl.
  repeat (rewrite lookup_insert_eq || (rewrite lookup_insert_ne by done)
          || rewrite lookup_singleton_eq).
  rewrite !validate_str_string, validate_bool_bool.
  destruct c, d, e, f; simpl; by rewrite ?validate_str_string.
Qed.

End NewsCreateMore.

(** ** [POST /api/news]: the three answers *)

Lemma NewsCreate_validate_raises {F : FieldTypes} (body : json) (e : exn) :
  NewsCreate_validate body = Raise e → ∃ rejected, e = RequestValidationError rejected.
Proof.
  destruct body as [| | | | | m]; simpl; try (intros [= <-]; by eexists).
  destruct (required_str m "title_en"), (required_str m "title_ar"),
    (optional_str m "body_en"), (optional_str m "body_ar"),
    (optional_str m "image_url"), (optional_str m "tag"),
    (bool_default_false m "featured"); intros [= <-]; by eexists.
Qed.

(** X22.  [POST /api/news] answers 200, 422 or 500, and every 422 comes from
    validation: the handler has not run and the world is as it was, so a
    body that fails validation for whatever reason never reaches the
    store. *)
Theorem POST_api_news_statuses {F : FieldTypes} {S} (database : Database S)
    (body : json) (w : World S) :
  (http_status (POST_api_news database body w).1 = 200
   ∨ http_status (POST_api_news database body w).1 = 422
   ∨ http_status (POST_api_news database body w).1 = 500)
  ∧ (http_status (POST_api_news database body w).1 = 422 →
     (POST_api_news database body w).2 = w
     ∧ ∃ rejected, NewsCreate_validate body = Raise (RequestValidationError rejected)).
Proof.
  unfold POST_api_news.
  destruct (NewsCreate_validate body) as [item | e] eqn:Hv.
  - assert (ok_or_500 (create_news database item w).1) as Hok by apply try_except_500.
    destruct Hok as [[v Hv'] | [detail Hd]]; rewrite ?Hv', ?Hd; simpl;
      (split; [tauto | done]).
  - apply NewsCreate_validate_raises in Hv as Hrej. destruct Hrej as [rejected ->].
    unfold raise. simpl. split; [tauto |]. intros _. split; [done | by eexists].
Qed.

(** ** The route table *)


(** ** The [User] schema *)

Section UserSchema.
Context {F : FieldTypes} {I : IntType}.

(** X20.  Every validated [User] has an age that is absent or between 0 and 120:
    the age is the integer the body carries, [None] when the body has no
    [age] or a null one; and a body without [is_active] gives an active
    user. *)
Theorem User_validate_invariant (body : json) (u : User) :
  User_validate body = Ok u →
  (∀ n, user_age u = Some n → 0 ≤ n ≤ 120)
  ∧ (∀ m j n, body = JObject m → m !! "age" = Some j → j ≠ JNull →
              validate_int j = Some n → user_age u = Some n)
  ∧ (∀ m, body = JObject m → m !! "age" = None ∨ m !! "age" = Some JNull →
          user_age u = None)
  ∧ (∀ m, body = JObject m → m !! "is_active" = None → user_is_active u = true).
Proof.
  destruct body as [| | | | | m]; try done.
  unfold User_validate, optional_int_between, bool_default_true.
  destruct (required_str m "name") as [a|]; [| done].
  destruct (required_str m "email") as [b|]; [| done].
  destruct (required_str m "address") as [c|]; [| done].
  destruct (match m !! "age" with
            | Some JNull | None => Some None
            | Some j =>
                match validate_int j with
                | Some n => if (0 <=? n) && (n <=? 120) then Some (Some n) else None
                | None => None
                end
            end) as [age|] eqn:Hage; [| done].
  destruct (match m !! "is_active" with
            | Some j => validate_bool j
            | None => Some true
            end) as [active|] eqn:Hactive; [| done].
  intros [= <-]. simpl. split; [| split; [| split]].
  - intros n ->.
    destruct (m !! "age") as [j|]; [| done].
    assert (((0 <=? n) && (n <=? 120)) = true) as Hrange.
    { destruct j; try done;
        (destruct (validate_int _) as [n0|]; [| done]);
        (destruct ((0 <=? n0) && (n0 <=? 120)) eqn:Hr; [| done]);
        by simplify_eq. }
    apply andb_true_iff in Hrange. lia.
  - intros m' j n [= <-] Hj Hnull Hint. rewrite Hj in Hage.
    assert (match validate_int j with
            | Some n0 => if (0 <=? n0) && (n0 <=? 120) then Some (Some n0) else None
            | None => None
            end = Some age) as Hj'.
    { by destruct j. }
    rewrite Hint in Hj'. destruct ((0 <=? n) && (n <=? 120)); by simplify_eq.
  - intros m' [= <-] [Hnone | Hnull]; rewrite ?Hnone, ?Hnull in Hage; by simplify_eq.
  - intros m' [= <-] Hnone. rewrite Hnone in Hactive. by simplify_eq.
Qed.

(** X21.  A body whose [age] converts to an integer below 0 or above 120 is
    rejected, whatever its other fields are. *)
Theorem User_validate_age_out_of_range (m : gmap string json) (j : json) (n : Z) :
  m !! "age" = Some j → j ≠ JNull → validate_int j = Some n →
  n < 0 ∨ 120 < n →
  ∃ rejected, User_validate (JObject m) = Raise (RequestValidationError rejected).
Proof.
  intros Hj Hnull Hint Hrange.
  destruct (User_validate (JObject m)) as [u | e] eqn:Hv.
  - destruct (User_validate_invariant _ _ Hv) as (Hbound & Hage & _).
    specialize (Hage m j n eq_refl Hj Hnull Hint).
    specialize (Hbound n Hage). lia.
  - unfold User_validate in Hv.
    destruct (required_str m "name"), (required_str m "email"),
      (required_str m "address"), (optional_int_between 0 120 m "age"),
      (bool_default_true m "is_active"); simplify_eq; by eexists.
Qed.

End UserSchema.

(** ** The further properties at concrete inputs *)

Lemma stringify_items_any_order_witness :
  let items := reverse (map_to_list doc_with_both_ids) in
  items ≡ₚ map_to_list doc_with_both_ids
  ∧ stringify_items (R := repr_placeholder) items doc_with_both_ids
    = stringify_items (R := repr_placeholder) (map_to_list doc_with_both_ids)
        doc_with_both_ids.
Proof.
  intros items.
  assert (items ≡ₚ map_to_list doc_with_both_ids) as Hperm by apply reverse_Permutation.
  split; [exact Hperm |].
  exact (stringify_items_any_order (R := repr_placeholder) items doc_with_both_ids Hperm).
Defined.

Lemma serialize_doc_twice_witness :
  let h : Obj.heap := {[ 1%positive := doc_with_both_ids ]} in
  h !! 1%positive = Some doc_with_both_ids
  ∧ ∃ l1 l2 out h2,
      (Obj.serialize_doc (R := repr_placeholder) (Obj.RDict 1%positive)
         ≫= Obj.serialize_doc (R := repr_placeholder)) h = Some (Obj.RDict l2, h2)
      ∧ l1 ≠ 1%positive ∧ l2 ≠ 1%positive ∧ l2 ≠ l1
      ∧ h2 !! 1%positive = Some doc_with_both_ids
      ∧ h2 !! l1 = Some out ∧ h2 !! l2 = Some out
      ∧ out = serialize_doc (R := repr_placeholder) doc_with_both_ids.
Proof.
  intros h. split; [reflexivity |].
  apply (serialize_doc_twice (R := repr_placeholder) h 1%positive doc_with_both_ids).
  - reflexivity.
  - intros Heq. by apply (f_equal (λ m : doc, m !! "id")) in Heq.
Defined.

Lemma test_database_error_text_witness :
  let e := OtherException
             "connection refused: the server at db.internal:27017 did not answer in time" in
  let database := store_down e in
  let w := mkWorld tt [] ∅ in
  import_error database = None
  ∧ ∃ resp w' shown rest,
      GET_test database w = (Ok (VDict resp), w')
      ∧ resp !! "database" = Some (VStr ("⚠️  Connected but Error: " +:+ shown))
      ∧ shown = "connection refused: the server at db.internal:2701"
      ∧ exn_str e = shown +:+ rest.
Proof.
  intros e database w. split; [reflexivity |].
  destruct (test_database_error_text database w e) as
    (resp & w' & shown & rest & Hrun & Hline & Hcut & Hlen & Hb & Hunique).
  { right. split; [reflexivity |]. by eexists _, _. }
  assert (shown = "connection refused: the server at db.internal:2701") as Hshown.
  { symmetry. apply (Hunique _ "7 did not answer in time"); reflexivity. }
  exists resp, w', shown, rest. split; [exact Hrun |]. split; [exact Hline |].
  split; [exact Hshown | exact Hcut].
Defined.

Lemma import_failure_is_500_witness :
  let e := ImportError "No module named 'database'" in
  let w := mkWorld tt [] ∅ in
  import_error (unimportable e) = Some e
  ∧ get_news_item (R := repr_placeholder) (unimportable e) "65a1b2c3d4e5f60718293a4b" w
    = (Raise (HTTPException 500 "No module named 'database'"), w)
  ∧ seed_news (unimportable e) w
    = (Raise (HTTPException 500 "No module named 'database'"), w).
Proof.
  intros e w. split; [reflexivity |].
  destruct (import_failure_is_500 (R := repr_placeholder) (unimportable e) w e eq_refl)
    as (_ & _ & Hget & _ & Hseed).
  split; [apply Hget | exact Hseed].
Defined.

Lemma get_news_item_no_store_access_witness :
  let w := MemStore.world (seed_store MemStore.empty) in
  (∃ e, ObjectId_new (R := repr_placeholder) "seed" = Raise e)
  ∧ (get_news_item (R := repr_placeholder) MemStore.adapter "seed" w).2 = w
  ∧ http_status (get_news_item (R := repr_placeholder) MemStore.adapter "seed" w).1 = 500.
Proof.
  intros w.
  assert (∃ e, ObjectId_new (R := repr_placeholder) "seed" = Raise e) as Hbad
    by by eexists.
  split; [exact Hbad |].
  apply (get_news_item_no_store_access (R := repr_placeholder) MemStore.adapter "seed" w).
  by right.
Defined.

Lemma get_news_item_id_lowercase_witness :
  let w := MemStore.world store_with_lettered_id in
  ObjectId_new (R := repr_placeholder) "00000000000000000000000A"
  = Ok (mkObjectId "00000000000000000000000a")
  ∧ ∃ out,
      (get_news_item (R := repr_placeholder) MemStore.adapter
         "00000000000000000000000A" w).1 = Ok (VDict out)
      ∧ out !! "id" = Some (VStr "00000000000000000000000a")
      ∧ (str_forallb is_hex_digit "00000000000000000000000A" = true →
         "00000000000000000000000a" = str_map lower_ascii "00000000000000000000000A").
Proof.
  intros w. split; [reflexivity |].
  apply (get_news_item_id_lowercase (R := repr_placeholder) MemStore.adapter
           "00000000000000000000000A" w MemStore.mem_db
           (mkObjectId "00000000000000000000000a")
           (<["_id" := VOid (mkObjectId "00000000000000000000000a")]> sample_partnership)
           (store w)); reflexivity.
Defined.

Lemma get_news_item_not_served_witness :
  let w := MemStore.world MemStore.empty in
  ObjectId_new (R := repr_placeholder) "65a1b2c3d4e5f60718293a4b"
  = Ok (mkObjectId "65a1b2c3d4e5f60718293a4b")
  ∧ get_news_item (R := repr_placeholder) MemStore.adapter "65a1b2c3d4e5f60718293a4b" w
    = (Raise (HTTPException 500 "404: News item not found"),
       mkWorld MemStore.empty
         [CallFindOne {[ "_id" := VOid (mkObjectId "65a1b2c3d4e5f60718293a4b") ]}] ∅).
Proof.
  intros w. split; [reflexivity |].
  apply (proj1 (get_news_item_not_served (R := repr_placeholder) MemStore.adapter
                  "65a1b2c3d4e5f60718293a4b" w MemStore.mem_db
                  (mkObjectId "65a1b2c3d4e5f60718293a4b") eq_refl eq_refl eq_refl)
           None MemStore.empty); [reflexivity | by left].
Defined.

Lemma seed_news_partial_failure_witness :
  let w : World nat := mkWorld 0%nat [] ∅ in
  samples = [sample_automation; sample_partnership] ++ sample_certification :: []
  ∧ seed_news (full_after 2) w
    = (Raise (HTTPException 500 "store is full"),
       mkWorld 2%nat (CallCreateDocument "newsitem" <$> samples) ∅).
Proof.
  intros w. split; [reflexivity |].
  apply (seed_news_partial_failure (full_after 2) w
           [sample_automation; sample_partnership] [] sample_certification
           ["0"; "1"] 2%nat 2%nat (OtherException "store is full")
           eq_refl eq_refl).
  - repeat (econstructor; [reflexivity |]). constructor.
  - reflexivity.
Defined.

Lemma unknown_fields_ignored_witness :
  let m1 : gmap string json :=
    {[ "title_en" := JString "Hello"; "title_ar" := JString "مرحبا" ]} in
  let m2 : gmap string json := <["views" := JNumber "7"]> m1 in
  let w := MemStore.world MemStore.empty in
  (∀ name, name ∈ NewsCreate_fields → m1 !! name = m2 !! name)
  ∧ POST_api_news (F := strict_fields) MemStore.adapter (JObject m1) w
    = POST_api_news (F := strict_fields) MemStore.adapter (JObject m2) w.
Proof.
  intros m1 m2 w.
  assert (∀ name, name ∈ NewsCreate_fields → m1 !! name = m2 !! name) as Hagree.
  { intros name Hin. unfold m2. rewrite lookup_insert_ne; [done |].
    intros <-. unfold NewsCreate_fields in Hin.
    repeat (apply elem_of_cons in Hin as [Hin | Hin]; [discriminate Hin |]).
    by apply elem_of_nil in Hin. }
  split; [exact Hagree |].
  exact (proj2 (unknown_fields_ignored (F := strict_fields) MemStore.adapter m1 m2 w
                  Hagree)).
Defined.

Lemma validate_json_round_trip_witness :
  NewsCreate_validate (F := strict_fields) (JObject (NewsCreate_json sample_item))
  = Ok sample_item.
Proof.
  exact (validate_json_round_trip (F := strict_fields) (FL := strict_fields_lawful)
           sample_item).
Defined.

Lemma User_validate_invariant_witness :
  let body := JObject {[ "name" := JString "Ada"; "email" := JString "ada@example.org";
                         "address" := JString "12 Mill Lane"; "age" := JNumber "36" ]} in
  let u := mkUser "Ada" "ada@example.org" "12 Mill Lane" (Some 36) true in
  User_validate (F := strict_fields) (I := decimal_int) body = Ok u
  ∧ (∀ n, user_age u = Some n → 0 ≤ n ≤ 120).
Proof.
  intros body u.
  assert (User_validate (F := strict_fields) (I := decimal_int) body = Ok u) as Hv.
  { vm_compute. reflexivity. }
  split; [exact Hv |].
  exact (proj1 (User_validate_invariant (F := strict_fields) (I := decimal_int)
                  body u Hv)).
Defined.

Lemma User_validate_age_out_of_range_witness :
  let m : gmap string json :=
    {[ "name" := JString "Ada"; "email" := JString "ada@example.org";
       "address" := JString "12 Mill Lane"; "age" := JNumber "130" ]} in
  m !! "age" = Some (JNumber "130")
  ∧ validate_int (IntType := decimal_int) (JNumber "130") = Some 130
  ∧ ∃ rejected,
      User_validate (F := strict_fields) (I := decimal_int) (JObject m)
      = Raise (RequestValidationError rejected).
Proof.
  intros m. split; [reflexivity |]. split; [reflexivity |].
  apply (User_validate_age_out_of_range (F := strict_fields) (I := decimal_int)
           m (JNumber "130") 130); [reflexivity | done | reflexivity | lia].
Defined.
